(** * Folder-path resolution of the Grafana dashboard exporter

    A shallow embedding of [grafana_migration/grafana_dashboard_exporter.py]
    and the properties of its folder walk ([get_full_path], the function the
    specification calls [resolve]) and of the export loop that consumes it.

    Python values are modelled as the program uses them:
    - a search hit is a JSON object; the program subscripts ['uid'] and
      ['title'] (required keys) and reads 'type', 'parentUid' and 'folderUid'
      through [.get] (optional keys, [None] when missing or null);
    - [folders] is a dict keyed by uid: a [gmap string search_item];
    - the [while] loop of [get_full_path] has no bound in the source, so the
      model takes a number of allowed iterations and yields [None] while the
      loop is still running;
    - the process state (the global [DIR], the dict captured by the closure,
      the local file system, standard output, the Grafana server) is threaded
      explicitly through a small state-and-exception monad. *)

From stdpp Require Import base option list strings gmap relations.
From Stdlib Require Import Ascii.
From Stdlib Require String.

(** ** Data *)

Record search_item := SearchItem {
  uid : string;                 (* item['uid'] *)
  title : string;               (* item['title'] *)
  type : option string;         (* item.get('type') *)
  parentUid : option string;    (* item.get('parentUid') *)
  folderUid : option string     (* item.get('folderUid') *)
}.

(** The answer of GET /api/dashboards/uid/<uid>, under its 'dashboard' key:
    the title and the text [json.dumps] produces for the object. *)
Record dashboard := Dashboard {
  dash_title : string;          (* data['title'] *)
  json_dumps : string           (* json.dumps(data, sort_keys=True, ...) *)
}.

Record world := World {
  DIR : string;                           (* the global DIR *)
  folders : gmap string search_item;      (* the dict built by build_folder_map *)
  grafana : gmap string dashboard;        (* uid -> dash_json['dashboard'] *)
  fs_dirs : gset string;                  (* paths given to os.makedirs so far *)
  fs_files : gmap string string;          (* path string -> text last written through it *)
  stdout : list string                    (* printed lines, oldest first *)
}.

Definition set_folders (m : gmap string search_item) (w : world) : world :=
  World (DIR w) m (grafana w) (fs_dirs w) (fs_files w) (stdout w).
Definition add_dir (p : string) (w : world) : world :=
  World (DIR w) (folders w) (grafana w) ({[ p ]} ∪ fs_dirs w) (fs_files w) (stdout w).
Definition put_file (p content : string) (w : world) : world :=
  World (DIR w) (folders w) (grafana w) (fs_dirs w) (<[ p := content ]> (fs_files w)) (stdout w).
Definition add_line (s : string) (w : world) : world :=
  World (DIR w) (folders w) (grafana w) (fs_dirs w) (fs_files w) (stdout w ++ [s]).

(** ** The monad of Python computations *)

Inductive outcome (A : Type) : Type :=
| Returned (a : A)
| Raised (exc : string).
Arguments Returned {A} a.
Arguments Raised {A} exc.

(** [None]: the computation has not finished within the allowed iterations. *)
Definition py (A : Type) : Type := world → option (outcome A * world).

Definition ret {A} (a : A) : py A := λ w, Some (Returned a, w).
Definition raise {A} (exc : string) : py A := λ w, Some (Raised exc, w).
Definition still_running {A} : py A := λ _, None.
Definition bind {A B} (m : py A) (k : A → py B) : py B := λ w,
  match m w with
  | None => None
  | Some (Returned a, w') => k a w'
  | Some (Raised exc, w') => Some (Raised exc, w')
  end.
Definition gets {A} (f : world → A) : py A := λ w, Some (Returned (f w), w).
Definition modify (f : world → world) : py unit := λ w, Some (Returned tt, f w).

#[global] Instance py_ret : MRet py := @ret.
#[global] Instance py_bind : MBind py := λ A B k m, bind m k.

(** ** Python primitives *)

(** Truth value of [current_uid]: [None] and the empty string are false. *)
Definition truthy (v : option string) : bool :=
  match v with
  | None => false
  | Some s => negb (String.eqb s "")
  end.

(** [key in folders] *)
Definition folders_contains (key : option string) : py bool :=
  fs ← gets folders;
  ret (match key with
       | Some k => bool_decide (is_Some (fs !! k))
       | None => false
       end).

(** [folders[key]] *)
Definition folders_getitem (key : option string) : py search_item :=
  fs ← gets folders;
  match key ≫= (fs !!.) with
  | Some it => ret it
  | None => raise "KeyError"
  end.

(** [l.insert(i, x)] *)
Definition list_insert_at {A} (i : nat) (x : A) (l : list A) : list A :=
  take i l ++ x :: drop i l.

(** The calls to the operating system are modelled as calls that succeed:
    [fs_dirs] records the paths given to [os.makedirs], [fs_files] the text
    last written through each path string. What the file system may refuse
    (an empty path, a regular file in the way, a directory at the file's
    path, permissions) and which path strings name the same file are outside
    the model; the theorems on runs below are therefore stated of runs, or
    parts of runs, that have finished, and of the turn that follows them. *)
Definition print (s : string) : py unit := modify (add_line s).
(** [os.makedirs(p, exist_ok=True)], when it succeeds *)
Definition os_makedirs (p : string) : py unit := modify (add_dir p).
(** [with open(p, 'w') as f: f.write(a); f.write(b)], when it succeeds *)
Definition write_file (p a b : string) : py unit := modify (put_file p (a +:+ b)).

(** [posixpath.join] *)
Definition startswith_sep (b : string) : bool :=
  match b with
  | String c _ => Ascii.eqb c "/"%char
  | EmptyString => false
  end.
Fixpoint endswith_sep (p : string) : bool :=
  match p with
  | EmptyString => false
  | String c EmptyString => Ascii.eqb c "/"%char
  | String _ r => endswith_sep r
  end.
Definition join_step (path b : string) : string :=
  if startswith_sep b then b
  else if String.eqb path "" || endswith_sep path then path +:+ b
  else path +:+ "/" +:+ b.
Definition os_path_join (a : string) (p : list string) : string :=
  foldl join_step a p.

(** [s.replace(c, '')] for a one-character [c] *)
Fixpoint remove_char (c : Ascii.ascii) (s : string) : string :=
  match s with
  | EmptyString => EmptyString
  | String d r => if Ascii.eqb d c then remove_char c r else String d (remove_char c r)
  end.

(** ** build_folder_map *)

Definition is_type (t : string) (it : search_item) : bool :=
  match type it with
  | Some s => String.eqb s t
  | None => false
  end.

(** The dict comprehension: a later hit with the same uid replaces an
    earlier one. *)
Definition folder_dict (search_results : list search_item) : gmap string search_item :=
  foldl (λ m it, if is_type "dash-folder" it then <[ uid it := it ]> m else m)
        ∅ search_results.

(** The loop of [get_full_path], with [parts] and [current_uid] its locals. *)
Fixpoint while_loop (fuel : nat) (parts : list string) (current_uid : option string)
  : py (list string) :=
  test ← (if truthy current_uid then folders_contains current_uid else ret false) : py bool;
  if test : bool then
    match fuel with
    | O => still_running
    | S fuel' =>
        folder ← folders_getitem current_uid;
        while_loop fuel' (list_insert_at 0 (title folder) parts) (parentUid folder)
    end
  else ret parts.

Definition get_full_path (fuel : nat) (folder_uid : option string) : py string :=
  parts ← while_loop fuel [] folder_uid;
  dir ← gets DIR;
  ret (match parts with
       | [] => dir
       | _ => os_path_join dir parts
       end).

(** [build_folder_map] binds [folders]; the closure it returns is
    [get_full_path] run in the resulting state. *)
Definition build_folder_map (search_results : list search_item) : py unit :=
  modify (set_folders (folder_dict search_results)).

(** The sequence the specification calls [resolve(folderId)]: the value of
    [parts] when the loop is left. *)
Definition resolve (fuel : nat) (w : world) (folder_uid : option string)
  : option (outcome (list string)) :=
  fst <$> while_loop fuel [] folder_uid w.

(** ** export_dashboards *)

Definition newline : string := String "010"%char EmptyString.

(** [data['title'].replace(' ', '').replace('/', '').replace(':', '')] *)
Definition file_stem (data : dashboard) : string :=
  remove_char ":"%char (remove_char "/"%char (remove_char " "%char (dash_title data))).

(** The two f-strings printed by the loop. *)
Definition saving_line (dash : search_item) : string :=
  "Saving dashboard: " +:+ title dash.
Definition warning_line (dash : search_item) : string :=
  "Warning: Dashboard " +:+ title dash +:+
  " not found in response for UID " +:+ uid dash +:+ ". Skipping.".

(** [os.path.join(folder_path, f"{name}.json")] *)
Definition target_file (folder_path : string) (data : dashboard) : string :=
  os_path_join folder_path [file_stem data +:+ ".json"].

(** One turn of the [for dash in search_results] loop. *)
Definition export_dashboard (fuel : nat) (dash : search_item) : py unit :=
  if negb (is_type "dash-db" dash) then ret tt
  else
    print (saving_line dash);;
    dash_json ← gets (λ w, grafana w !! uid dash);
    match dash_json with
    | None => print (warning_line dash)
    | Some data =>
        folder_path ← get_full_path fuel (folderUid dash);
        os_makedirs folder_path;;
        write_file (target_file folder_path data) (json_dumps data) newline
    end.

Fixpoint export_dashboards (fuel : nat) (search_results : list search_item) : py unit :=
  match search_results with
  | [] => ret tt
  | dash :: rest => export_dashboard fuel dash;; export_dashboards fuel rest
  end.

(** ** The walk as the specification words it *)

Module Spec.

(** "start an empty ordered sequence; set current = folderId; while current
    is non-null and present in the mapping, prepend the folder's title to the
    sequence and set current = mapping[current].parentId; stop when current
    is null or not found"; the third index is the sequence returned. *)
Inductive walk (mapping : gmap string search_item)
  : list string → option string → list string → Prop :=
| walk_null seq : walk mapping seq None seq
| walk_not_found seq current :
    mapping !! current = None → walk mapping seq (Some current) seq
| walk_prepend seq current folder res :
    mapping !! current = Some folder →
    walk mapping (title folder :: seq) (parentUid folder) res →
    walk mapping seq (Some current) res.

Definition resolves (mapping : gmap string search_item) (folderId : option string)
  (res : list string) : Prop :=
  walk mapping [] folderId res.

(** Depth of a folder id in the tree of parent links: the number of folders
    from it up to a root, a root being a folder with no parent; [None] (root
    level) has depth 0, and so has an id absent from the mapping ("orphaned
    subtree becomes a root-level path"): a folder whose parent is missing
    counts as a root, a leaf whose folderId is unknown is at root level. *)
Inductive depth (mapping : gmap string search_item) : option string → nat → Prop :=
| depth_root_level : depth mapping None 0
| depth_absent u : mapping !! u = None → depth mapping (Some u) 0
| depth_folder u folder n :
    mapping !! u = Some folder →
    depth mapping (parentUid folder) n →
    depth mapping (Some u) (S n).

End Spec.

(** ** What one turn of the loop does *)

(** The folder the loop works on when its test holds, [None] when the loop is
    left. *)
Definition loop_folder (fs : gmap string search_item) (current_uid : option string)
  : option search_item :=
  match current_uid with
  | Some u => if String.eqb u "" then None else fs !! u
  | None => None
  end.

(** The walk with the test of the source: [current_uid and current_uid in
    folders] is false for the empty string as it is for [None]. *)
Inductive walk (fs : gmap string search_item)
  : list string → option string → list string → Prop :=
| walk_null seq : walk fs seq None seq
| walk_empty seq : walk fs seq (Some "") seq
| walk_not_found seq current :
    fs !! current = None → walk fs seq (Some current) seq
| walk_prepend seq current folder res :
    current ≠ "" →
    fs !! current = Some folder →
    walk fs (title folder :: seq) (parentUid folder) res →
    walk fs seq (Some current) res.

(** The folders met from [u] upwards, in the order met, and the parent
    reference of the last of them. *)
Inductive lineage (fs : gmap string search_item)
  : string → list search_item → option string → Prop :=
| lineage_last u f : fs !! u = Some f → lineage fs u [f] (parentUid f)
| lineage_up u f v l x :
    fs !! u = Some f → parentUid f = Some v → lineage fs v l x →
    lineage fs u (f :: l) x.

(** [v] is the id of a folder on the chain of parent references that starts
    at [current]: of the folder [current] names, of its parent, and so on as
    long as the ids are present in the mapping. *)
Inductive on_chain (fs : gmap string search_item) : option string → string → Prop :=
| on_chain_here u f : fs !! u = Some f → on_chain fs (Some u) u
| on_chain_up u f v :
    fs !! u = Some f → on_chain fs (parentUid f) v → on_chain fs (Some u) v.

(** Parent links the loop follows: from a non-empty uid of the dict to the
    parent uid its folder names. *)
Definition parent_link (fs : gmap string search_item) (u v : string) : Prop :=
  u ≠ "" ∧ ∃ folder, fs !! u = Some folder ∧ parentUid folder = Some v.

(** A cycle of parent links can be reached from the queried id. *)
Definition reaches_cycle (fs : gmap string search_item) (folder_uid : option string) : Prop :=
  ∃ u c, folder_uid = Some u ∧ rtc (parent_link fs) u c ∧ tc (parent_link fs) c c.

(** The loop test holds at [u]. *)
Definition live (fs : gmap string search_item) (u : string) : Prop :=
  u ≠ "" ∧ is_Some (fs !! u).

(** On a cycle, or on the way to one. *)
Definition trapped (fs : gmap string search_item) (u : string) : Prop :=
  ∃ c, rtc (parent_link fs) u c ∧ tc (parent_link fs) c c.

(** The lines one turn of the export loop prints. *)
Definition printed (api : gmap string dashboard) (d : search_item) : list string :=
  if is_type "dash-db" d then
    match api !! uid d with
    | Some _ => [saving_line d]
    | None => [saving_line d; warning_line d]
    end
  else [].

(** ** Sample data *)

Definition folder (u : string) (parent : option string) : search_item :=
  SearchItem u u (Some "dash-folder") parent None.
Definition dash (u t : string) (fld : option string) : search_item :=
  SearchItem u t (Some "dash-db") None fld.

Definition world0 (fs : gmap string search_item) : world :=
  World "./grafana-dash-backup/" fs ∅ ∅ ∅ [].

Definition chain3 : gmap string search_item :=
  folder_dict [folder "A" None; folder "B" (Some "A"); folder "C" (Some "B")].
Definition cycle2 : gmap string search_item :=
  folder_dict [folder "A" (Some "B"); folder "B" (Some "A")].
Definition orphan : gmap string search_item :=
  folder_dict [folder "B" (Some "X"); folder "C" (Some "B")].
Definition unnamed : gmap string search_item :=
  folder_dict [SearchItem "" "General" (Some "dash-folder") None None].
Definition unnamed_orphan : gmap string search_item :=
  folder_dict [SearchItem "" "General" (Some "dash-folder") (Some "X") None].

(** The orphaned chain beside a folder whose uid is the empty string. *)
Definition orphan_beside_unnamed : gmap string search_item :=
  folder_dict [SearchItem "" "General" (Some "dash-folder") None None;
               folder "B" (Some "X"); folder "C" (Some "B")].

(** The listing in which C is a dashboard kept in folder B. *)
Definition chain2_leaf : list search_item :=
  [folder "A" None; folder "B" (Some "A"); dash "C" "C" (Some "B")].

(** Two dashboards with the same title at root level. *)
Definition twins : list search_item :=
  [dash "d1" "CPU load" None; dash "d2" "CPU load" None].
Definition twins_world : world :=
  World "./grafana-dash-backup/" ∅
        (<[ "d1" := Dashboard "CPU load" "{1}" ]> (<[ "d2" := Dashboard "CPU load" "{2}" ]> ∅))
        ∅ ∅ [].

(** The state after the turn of the first of the two. *)
Definition twins_first : world :=
  World "./grafana-dash-backup/" ∅ (grafana twins_world)
        {[ "./grafana-dash-backup/" ]}
        {[ "./grafana-dash-backup/CPUload.json" := "{1}" +:+ newline ]}
        ["Saving dashboard: CPU load"].

Definition twins_done : world :=
  World "./grafana-dash-backup/" ∅ (grafana twins_world)
        {[ "./grafana-dash-backup/" ]}
        {[ "./grafana-dash-backup/CPUload.json" := "{2}" +:+ newline ]}
        ["Saving dashboard: CPU load"; "Saving dashboard: CPU load"].

(** ** The rest of the script *)

(** [os.path.exists(p)]: true of a directory and of a file. *)
Definition os_path_exists (p : string) : py bool :=
  gets (λ w, bool_decide (p ∈ fs_dirs w) || bool_decide (is_Some (fs_files w !! p))).

Definition create_root_directories : py unit :=
  dir ← gets DIR;
  found ← os_path_exists dir;
  if found : bool then ret tt else os_makedirs dir.

(** The keys of the dict [build_folder_map] makes, in the order a Python dict
    iterates them: each uid at the place of its first insertion. *)
Definition dict_keys (search_results : list search_item) : list string :=
  foldl (λ ks it,
           if is_type "dash-folder" it
           then (if bool_decide (uid it ∈ ks) then ks else ks ++ [uid it])
           else ks)
        [] search_results.

(** [for uid in folders: ...], with [uids] the keys in iteration order. *)
Fixpoint create_folder_structure (fuel : nat) (uids : list string) : py unit :=
  match uids with
  | [] => ret tt
  | u :: rest =>
      folder_path ← get_full_path fuel (Some u);
      os_makedirs folder_path;;
      create_folder_structure fuel rest
  end.

(** [s.rstrip(c)] for a one-character [c] *)
Fixpoint rstrip_char (c : Ascii.ascii) (s : string) : string :=
  match s with
  | EmptyString => EmptyString
  | String d r =>
      match rstrip_char c r with
      | EmptyString => if Ascii.eqb d c then EmptyString else String d EmptyString
      | r' => String d r'
      end
  end.

Definition set_DIR (d : string) (w : world) : world :=
  World d (folders w) (grafana w) (fs_dirs w) (fs_files w) (stdout w).

(** [fetch_resources]: the answer of the search call is given from outside,
    either the decoded listing or the exception of [raise_for_status]. *)
Definition fetch_resources (response : outcome (list search_item))
  : py (list search_item) :=
  match response with
  | Returned listing => ret listing
  | Raised exc => raise exc
  end.

(** [main], from the parsed arguments on. *)
Definition main (fuel : nat) (args_host args_dir : string)
    (response : outcome (list search_item)) : py unit :=
  let HOST := rstrip_char "/"%char args_host in
  modify (set_DIR args_dir);;
  print ("Exporting dashboards from: " +:+ HOST);;
  print ("Output directory: " +:+ args_dir);;
  create_root_directories;;
  search_results ← fetch_resources response;
  build_folder_map search_results;;
  create_folder_structure fuel (dict_keys search_results);;
  export_dashboards fuel search_results.

(** The [__main__] block. *)
Definition script (fuel : nat) (args_host args_dir : string)
    (response : outcome (list search_item)) : py unit :=
  main fuel args_host args_dir response;;
  print "Grafana dashboards backup completed successfully.".

(** No folder of the dict is its own ancestor. *)
Definition acyclic (fs : gmap string search_item) : Prop :=
  ∀ c, ¬ tc (parent_link fs) c c.

(** The file one turn of the export loop writes, if any, put into [files]:
    [w] gives the dict, [DIR] and the server's answers. *)
Definition write_of (fuel : nat) (w : world) (files : gmap string string)
    (d : search_item) : gmap string string :=
  if is_type "dash-db" d then
    match grafana w !! uid d, get_full_path fuel (folderUid d) w with
    | Some data, Some (Returned p, _) =>
        <[ target_file p data := json_dumps data +:+ newline ]> files
    | _, _ => files
    end
  else files.

(** The characters the file name of a dashboard never holds. *)
Definition stripped (c : Ascii.ascii) : Prop :=
  c = " "%char ∨ c = "/"%char ∨ c = ":"%char.

#[global] Instance stripped_dec c : Decision (stripped c).
Proof. unfold stripped. apply _. Defined.

(** Sample: a listing with a folder, a sub-folder and a dashboard in it. *)
Definition small_listing : list search_item :=
  [folder "A" None; dash "d" "CPU load" (Some "B"); folder "B" (Some "A")].
Definition small_api : gmap string dashboard :=
  {[ "d" := Dashboard "CPU load" "{}" ]}.
Definition small_world : world :=
  World "out" (folder_dict small_listing) small_api ∅ ∅ [].

Definition small_done : world :=
  World "out" (folder_dict small_listing) small_api
        {[ "out/A/B" ]}
        {[ "out/A/B/CPUload.json" := "{}" +:+ newline ]}
        ["Saving dashboard: CPU load"].

(** The state in which the script leaves [small_world]. *)
Definition small_run_done : world :=
  World "out" (folder_dict small_listing) small_api
        {[ "out"; "out/A"; "out/A/B" ]}
        {[ "out/A/B/CPUload.json" := "{}" +:+ newline ]}
        ["Exporting dashboards from: http://g"; "Output directory: out";
         "Saving dashboard: CPU load";
         "Grafana dashboards backup completed successfully."].


(** Sample: a dashboard kept in a folder of the 2-cycle. *)
Definition cycle_world : world :=
  World "out" cycle2 small_api ∅ ∅ [].

(** The state in which [main] reaches the listing. *)
Definition main_prepared (args_host args_dir : string) (w : world) : world :=
  let w1 := add_line ("Output directory: " +:+ args_dir)
              (add_line ("Exporting dashboards from: " +:+ rstrip_char "/"%char args_host)
                 (set_DIR args_dir w)) in
  if bool_decide (args_dir ∈ fs_dirs w) || bool_decide (is_Some (fs_files w !! args_dir))
  then w1 else add_dir args_dir w1.

(** [n] slashes. *)
Definition slashes (n : nat) : string :=
  String.string_of_list_ascii (replicate n "/"%char).

(** The path and the text one turn of the export loop writes, if any. *)
Definition written (fuel : nat) (w : world) (d : search_item) : option (string * string) :=
  if is_type "dash-db" d then
    match grafana w !! uid d, get_full_path fuel (folderUid d) w with
    | Some data, Some (Returned p, _) =>
        Some (target_file p data, json_dumps data +:+ newline)
    | _, _ => None
    end
  else None.

(** ** The loop, turn by turn *)

Lemma eqb_empty_false (u : string) : u ≠ "" → String.eqb u "" = false.
Proof. intros Hu. by apply String.eqb_neq. Qed.

Lemma loop_folder_Some fs cur f :
  loop_folder fs cur = Some f ↔ ∃ u, cur = Some u ∧ u ≠ "" ∧ fs !! u = Some f.
Proof.
  unfold loop_folder. split.
  - destruct cur as [u|]; [|done].
    destruct (String.eqb_spec u ""); [done|]. intros Hf. by exists u.
  - intros (u & -> & Hu & Hf). by rewrite eqb_empty_false.
Qed.

Lemma folders_contains_run k w :
  folders_contains (Some k) w = Some (Returned (bool_decide (is_Some (folders w !! k))), w).
Proof. done. Qed.

Lemma while_loop_turn fuel parts cur w :
  while_loop fuel parts cur w =
  match loop_folder (folders w) cur with
  | None => Some (Returned parts, w)
  | Some f =>
      match fuel with
      | O => None
      | S fuel' => while_loop fuel' (title f :: parts) (parentUid f) w
      end
  end.
Proof.
  destruct cur as [u|]; [|by destruct fuel].
  assert (Hdec : bool_decide (is_Some (folders w !! u))
                 = match folders w !! u with Some _ => true | None => false end).
  { destruct (folders w !! u) eqn:Hf.
    - apply bool_decide_eq_true_2. eauto.
    - apply bool_decide_eq_false_2. by intros [? ?]. }
  destruct fuel; cbn -[String.eqb folders_contains]; unfold mbind, py_bind, bind, truthy, loop_folder;
    destruct (String.eqb u ""); cbn -[folders_contains]; try done;
    rewrite folders_contains_run, Hdec;
    destruct (folders w !! u) as [f|] eqn:Hf; cbn; try done.
  unfold folders_getitem, mbind, py_bind, bind. cbn. by rewrite Hf.
Qed.

#[global] Arguments while_loop : simpl never.

(** The loop raises nothing and leaves the state as it found it. *)
Lemma while_loop_pure fuel parts cur w o w' :
  while_loop fuel parts cur w = Some (o, w') → w' = w ∧ ∃ res, o = Returned res.
Proof.
  revert parts cur. induction fuel as [|fuel IH]; intros parts cur;
    rewrite while_loop_turn; destruct (loop_folder (folders w) cur);
    first [done | by apply IH | intros [= <- <-]; eauto].
Qed.

(** The loop reads nothing but the dict. *)
Lemma while_loop_frame fuel parts cur w1 w2 :
  folders w1 = folders w2 →
  fst <$> while_loop fuel parts cur w1 = fst <$> while_loop fuel parts cur w2.
Proof.
  intros Hfs. revert parts cur. induction fuel as [|fuel IH]; intros parts cur;
    rewrite !while_loop_turn, <- Hfs; destruct (loop_folder (folders w1) cur);
    first [done | by apply IH].
Qed.

(** More allowed iterations do not change a result. *)
Lemma while_loop_mono fuel fuel' parts cur w r :
  fuel ≤ fuel' →
  while_loop fuel parts cur w = Some r → while_loop fuel' parts cur w = Some r.
Proof.
  revert fuel' parts cur. induction fuel as [|fuel IH]; intros fuel' parts cur Hle;
    rewrite !while_loop_turn; destruct (loop_folder (folders w) cur); try done.
  destruct fuel' as [|fuel']; [lia|]. apply IH. lia.
Qed.

Lemma while_loop_det fuel1 fuel2 parts cur w r1 r2 :
  while_loop fuel1 parts cur w = Some r1 →
  while_loop fuel2 parts cur w = Some r2 → r1 = r2.
Proof.
  intros H1 H2.
  apply (while_loop_mono _ (fuel1 `max` fuel2)) in H1; [|lia].
  apply (while_loop_mono _ (fuel1 `max` fuel2)) in H2; [|lia].
  congruence.
Qed.

(** The titles found are put in front of the ones already there. *)
Lemma while_loop_parts fuel parts cur w :
  while_loop fuel parts cur w =
  match while_loop fuel [] cur w with
  | Some (Returned res, w') => Some (Returned (res ++ parts), w')
  | other => other
  end.
Proof.
  revert parts cur. induction fuel as [|fuel IH]; intros parts cur;
    rewrite !(while_loop_turn _ _ cur); destruct (loop_folder (folders w) cur) as [f|];
    try done.
  rewrite (IH (title f :: parts)), (IH [title f]).
  destruct (while_loop fuel [] (parentUid f) w) as [[[res|exc] w']|]; try done.
  by rewrite <- app_assoc.
Qed.

Lemma walk_leave fs parts cur :
  loop_folder fs cur = None → walk fs parts cur parts.
Proof.
  destruct cur as [u|]; [|constructor]. simpl.
  destruct (String.eqb_spec u "") as [->|Hu]; [constructor|]. by constructor.
Qed.

Lemma walk_leave_inv fs parts cur res :
  loop_folder fs cur = None → walk fs parts cur res → res = parts.
Proof.
  intros Hnone Hwalk. inversion Hwalk as [| | |? u f ? Hu Hf Hrest]; subst; try done.
  assert (loop_folder fs (Some u) = Some f) by (apply loop_folder_Some; eauto).
  congruence.
Qed.

Lemma walk_while_loop fs parts cur res w :
  folders w = fs →
  walk fs parts cur res ↔ ∃ fuel, while_loop fuel parts cur w = Some (Returned res, w).
Proof.
  intros <-. split.
  - induction 1 as [parts|parts|parts u Hnone|parts u f res Hu Hf _ [fuel IH]].
    + by exists 0.
    + exists 0. by rewrite while_loop_turn.
    + exists 0. rewrite while_loop_turn. simpl. rewrite Hnone. by destruct (String.eqb u "").
    + exists (S fuel). rewrite while_loop_turn. simpl. by rewrite eqb_empty_false, Hf.
  - intros [fuel Hrun]. revert parts cur Hrun.
    induction fuel as [|fuel IH]; intros parts cur; rewrite while_loop_turn;
      destruct (loop_folder (folders w) cur) as [f|] eqn:Hf; try done.
    + intros [= <-]. by apply walk_leave.
    + apply loop_folder_Some in Hf as (u & -> & Hu & Hf). intros Hrun.
      eapply walk_prepend; eauto.
    + intros [= <-]. by apply walk_leave.
Qed.

(** Where no folder has the empty uid, the test of the source is the one of
    the specification. *)
Lemma walk_spec_walk fs parts cur res :
  fs !! "" = None → walk fs parts cur res ↔ Spec.walk fs parts cur res.
Proof.
  intros Hnone. split.
  - induction 1; try by constructor.
    eapply Spec.walk_prepend; eauto.
  - induction 1 as [|seq u Hu|seq u f res Hf _ IH]; try by constructor.
    eapply walk_prepend; eauto. congruence.
Qed.

(** ** Termination of the walk *)

Section parent_links.
Variable fs : gmap string search_item.

Lemma parent_link_live u v : parent_link fs u v → live fs u.
Proof. intros (Hu & f & Hf & _). split; eauto. Qed.

Lemma parent_link_loop_folder u v :
  parent_link fs u v → ∃ f, loop_folder fs (Some u) = Some f ∧ parentUid f = Some v.
Proof.
  intros (Hu & f & Hf & Hp). exists f. split; [|done].
  apply loop_folder_Some. eauto.
Qed.

Lemma trapped_next u : trapped fs u → ∃ v, parent_link fs u v ∧ trapped fs v.
Proof.
  intros (c & Huc & Hcc). destruct Huc as [u|u v c Huv Hvc].
  - inversion Hcc as [x y Huv|x v y Huv Hvu]; subst.
    + exists u. split; [done|]. by exists u.
    + exists v. split; [done|]. exists u. split; [by apply tc_rtc|done].
  - exists v. split; [done|]. by exists c.
Qed.

Lemma trapped_nsteps n u : trapped fs u → ∃ v, nsteps (parent_link fs) n u v ∧ live fs v.
Proof.
  revert u. induction n as [|n IH]; intros u Hu.
  - exists u. split; [constructor|].
    destruct (trapped_next u Hu) as (v & Huv & _). by eapply parent_link_live.
  - destruct (trapped_next u Hu) as (v & Huv & Hv).
    destruct (IH v Hv) as (z & Hvz & Hz). exists z. split; [|done].
    by eapply nsteps_l.
Qed.

(** A walk that meets no cycle visits each folder at most once: with [seen]
    the uids already left behind, [n] further turns fit into the dict. *)
Lemma acyclic_walk_bound n u v (seen : gset string) :
  (∀ x, x ∈ seen → tc (parent_link fs) x u) →
  seen ⊆ dom fs →
  (∀ c, rtc (parent_link fs) u c → ¬ tc (parent_link fs) c c) →
  nsteps (parent_link fs) n u v → live fs v →
  size seen + n + 1 ≤ size fs.
Proof.
  revert u seen. induction n as [|n IH]; intros u seen Hseen Hdom Hacyc Hsteps Hv.
  - inversion Hsteps; subst.
    assert (v ∉ seen) as Hnew.
    { intros Hin. apply (Hacyc v); [constructor|]. by apply Hseen. }
    assert ({[ v ]} ∪ seen ⊆ dom fs) as Hsub.
    { apply union_subseteq. split; [|done].
      apply singleton_subseteq_l, elem_of_dom. apply Hv. }
    apply subseteq_size in Hsub.
    rewrite size_union, size_singleton, size_dom in Hsub by set_solver. lia.
  - inversion Hsteps as [|n' x y z Hxy Hyz]; subst.
    assert (u ∉ seen) as Hnew.
    { intros Hin. apply (Hacyc u); [constructor|]. by apply Hseen. }
    assert (size ({[ u ]} ∪ seen) + n + 1 ≤ size fs) as Hle.
    { apply (IH y); [| | |done|done].
      - intros x [->%elem_of_singleton|Hin]%elem_of_union.
        + by apply tc_once.
        + eapply tc_r; eauto.
      - apply union_subseteq. split; [|done].
        apply singleton_subseteq_l, elem_of_dom.
        by apply (parent_link_live _ _ Hxy).
      - intros c Hyc. apply Hacyc. by eapply rtc_l. }
    rewrite size_union, size_singleton in Hle by set_solver. lia.
Qed.

End parent_links.

(** The loop is still running after [n] turns exactly when [n] parent links
    can be followed from [current_uid] and the test holds again at the end. *)
Lemma while_loop_running n parts cur w :
  while_loop n parts cur w = None ↔
  ∃ u v, cur = Some u ∧ nsteps (parent_link (folders w)) n u v ∧ live (folders w) v.
Proof.
  revert parts cur. induction n as [|n IH]; intros parts cur;
    rewrite while_loop_turn; destruct (loop_folder (folders w) cur) as [f|] eqn:Hf.
  - apply loop_folder_Some in Hf as (u & -> & Hu & Hf). split; [|done].
    intros _. exists u, u. split; [done|]. split; [constructor|]. split; eauto.
  - split; [done|]. intros (u & v & -> & Hsteps & Hu & f & Hfu).
    inversion Hsteps; subst.
    assert (loop_folder (folders w) (Some v) = Some f) as Hf' by (apply loop_folder_Some; eauto).
    congruence.
  - apply loop_folder_Some in Hf as (u & -> & Hu & Hf). rewrite IH. split.
    + intros (u' & v & Hp & Hsteps & Hv). exists u, v. split; [done|]. split; [|done].
      eapply nsteps_l; [|done]. split; eauto.
    + intros (u0 & v & [= <-] & Hsteps & Hv).
      inversion Hsteps as [|n' x y z (_ & f' & Hf' & Hp) Hyz]; subst.
      exists y, v. split; [congruence|done].
  - split; [done|]. intros (u & v & -> & Hsteps & _).
    inversion Hsteps as [|n' x y z Hxy Hyz]; subst.
    apply parent_link_loop_folder in Hxy as (f & Hf' & _). congruence.
Qed.

Lemma resolve_running n w q :
  resolve n w q = None ↔ while_loop n [] q w = None.
Proof. unfold resolve. by destruct (while_loop n [] q w). Qed.

Lemma cycle_never_leaves w q n :
  reaches_cycle (folders w) q → while_loop n [] q w = None.
Proof.
  intros (u & c & -> & Huc & Hcc). apply while_loop_running.
  destruct (trapped_nsteps (folders w) n u) as (v & Hsteps & Hv); [by exists c|].
  by exists u, v.
Qed.

Lemma acyclic_leaves w q :
  ¬ reaches_cycle (folders w) q →
  ∃ res, while_loop (size (folders w)) [] q w = Some (Returned res, w).
Proof.
  intros Hacyc.
  destruct (while_loop (size (folders w)) [] q w) as [[o w']|] eqn:Hrun.
  - destruct (while_loop_pure _ _ _ _ _ _ Hrun) as (-> & res & ->). eauto.
  - apply while_loop_running in Hrun as (u & v & -> & Hsteps & Hv).
    assert (size (∅ : gset string) + size (folders w) + 1 ≤ size (folders w)) as Hbound.
    { apply (acyclic_walk_bound (folders w) _ u v ∅); [set_solver|set_solver| |done|done].
      intros c Huc Hcc. apply Hacyc. by exists u, c. }
    rewrite size_empty in Hbound. lia.
Qed.

Lemma resolve_Returned fuel w q res :
  resolve fuel w q = Some (Returned res) ↔
  while_loop fuel [] q w = Some (Returned res, w).
Proof.
  unfold resolve. split.
  - destruct (while_loop fuel [] q w) as [[o w']|] eqn:Hrun; [|done].
    destruct (while_loop_pure _ _ _ _ _ _ Hrun) as (-> & _). by intros [= ->].
  - by intros ->.
Qed.

(** ** The algorithm of the walk *)

(** C1, as stated, fails where a folder has the empty uid: the source tests
    the truth value of [current_uid], so the walk is left at once, while
    "non-null and present" has the title prepended. *)
Lemma spec_walk_differs_on_empty_uid :
  resolve 1 (world0 unnamed) (Some "") = Some (Returned []) ∧
  Spec.resolves unnamed (Some "") ["General"] ∧
  ¬ Spec.resolves unnamed (Some "") [].
Proof.
  split; [by vm_compute|]. split.
  - eapply Spec.walk_prepend; [by vm_compute|]. constructor.
  - intros Hres. inversion Hres as [|? ? Hnone|? ? f res Hf Hrest]; subst.
    + by vm_compute in Hnone.
    + vm_compute in Hf. injection Hf as <-. simpl in Hrest. inversion Hrest.
Qed.

(** C1 (amended): for every folder mapping and every folderId, [resolve]
    returns [res] exactly when the walk does: start from the empty sequence
    with current = folderId; while current is non-null, not the empty string
    and present in the mapping, prepend the folder's title and move to its
    parentUid; stop otherwise and return the sequence. *)
Theorem resolve_follows_walk (w : world) (folder_uid : option string) (res : list string) :
  (∃ fuel, resolve fuel w folder_uid = Some (Returned res)) ↔
  walk (folders w) [] folder_uid res.
Proof.
  rewrite (walk_while_loop (folders w) [] folder_uid res w eq_refl).
  split; intros [fuel Hrun]; exists fuel; by apply resolve_Returned.
Qed.

(** ** Cycles *)

(** C2, as stated, fails on the 2-cycle A(parent=B), B(parent=A): no number
    of turns ends the call with a CycleDetected condition. *)
Lemma cycle2_raises_nothing :
  ¬ ∃ fuel, resolve fuel (world0 cycle2) (Some "A") = Some (Raised "CycleDetected").
Proof.
  intros [fuel Hrun]. unfold resolve in Hrun.
  destruct (while_loop fuel [] (Some "A") (world0 cycle2)) as [[o w']|] eqn:Hloop; [|done].
  destruct (while_loop_pure _ _ _ _ _ _ Hloop) as (_ & res & ->). done.
Qed.

Lemma cycle2_reaches_cycle : reaches_cycle cycle2 (Some "A").
Proof.
  exists "A", "A". split; [done|]. split; [constructor|].
  apply tc_l with "B"; [|apply tc_once]; (split; [done|]); eexists; by vm_compute.
Qed.

(** C2 (amended): for every folder mapping with a cycle of parent links
    reachable from the queried id, [resolve] raises no condition and returns
    nothing: after any number of turns the loop is still running, and so is
    the call of [get_full_path]. *)
Theorem cycle_runs_forever (w : world) (folder_uid : option string) (fuel : nat) :
  reaches_cycle (folders w) folder_uid →
  resolve fuel w folder_uid = None ∧ get_full_path fuel folder_uid w = None.
Proof.
  intros Hcyc. pose proof (cycle_never_leaves w folder_uid fuel Hcyc) as Hrun.
  split; [by apply resolve_running|].
  unfold get_full_path, mbind, py_bind, bind. by rewrite Hrun.
Qed.

Lemma cycle_runs_forever_witness :
  reaches_cycle (folders (world0 cycle2)) (Some "A") ∧
  resolve 7 (world0 cycle2) (Some "A") = None ∧
  get_full_path 7 (Some "A") (world0 cycle2) = None.
Proof.
  split; [exact cycle2_reaches_cycle|].
  exact (cycle_runs_forever (world0 cycle2) (Some "A") 7 cycle2_reaches_cycle).
Defined.

(** C3, as stated, fails on the same 2-cycle: the call never ends, with any
    outcome. *)
Lemma cycle2_never_terminates :
  ¬ ∃ fuel o, resolve fuel (world0 cycle2) (Some "A") = Some o.
Proof.
  intros (fuel & o & Hrun).
  pose proof (cycle_never_leaves (world0 cycle2) (Some "A") fuel cycle2_reaches_cycle) as Hnone.
  apply resolve_running in Hnone. congruence.
Qed.

(** C3 (amended): for every folder mapping and every folderId, [resolve]
    terminates exactly when no cycle of parent links is reachable from the
    queried id, and then it returns after at most as many turns as the mapping
    has folders. *)
Theorem resolve_terminates_iff_acyclic (w : world) (folder_uid : option string) :
  (∃ res, resolve (size (folders w)) w folder_uid = Some (Returned res)) ↔
  ¬ reaches_cycle (folders w) folder_uid.
Proof.
  split.
  - intros [res Hrun] Hcyc.
    pose proof (cycle_never_leaves w folder_uid (size (folders w)) Hcyc) as Hnone.
    apply resolve_running in Hnone. congruence.
  - intros Hacyc. destruct (acyclic_leaves w folder_uid Hacyc) as [res Hrun].
    exists res. by apply resolve_Returned.
Qed.

(** ** The chain A <- B <- C *)

(** C4, as stated, fails: with A, B and C three folders of the mapping,
    the walk from "C" starts by prepending C's own title. *)
Lemma chain3_resolve_C_is_not_A_B :
  resolve 3 (world0 chain3) (Some "C") = Some (Returned ["A"; "B"; "C"]) ∧
  ¬ ∃ fuel, resolve fuel (world0 chain3) (Some "C") = Some (Returned ["A"; "B"]).
Proof.
  split; [by vm_compute|]. intros [fuel Hrun].
  apply resolve_Returned in Hrun.
  assert (while_loop 3 [] (Some "C") (world0 chain3)
          = Some (Returned ["A"; "B"; "C"], world0 chain3)) as H3 by by vm_compute.
  pose proof (while_loop_det _ _ _ _ _ _ _ Hrun H3). congruence.
Qed.

(** C4 (amended): for the three-folder chain A(parent=null) <- B(parent=A) <-
    C(parent=B), [resolve "C"] returns ["A", "B", "C"] and ["A", "B"] is what
    [resolve "B"] returns; when C is a leaf item with folderId B instead,
    [resolve] of its folderId returns ["A", "B"] and [resolve "C"] the empty
    sequence. *)
Theorem chain3_resolve (k : nat) :
  resolve (3 + k) (world0 chain3) (Some "C") = Some (Returned ["A"; "B"; "C"]) ∧
  resolve (3 + k) (world0 chain3) (Some "B") = Some (Returned ["A"; "B"]) ∧
  resolve (3 + k) (world0 (folder_dict chain2_leaf)) (folderUid (dash "C" "C" (Some "B")))
    = Some (Returned ["A"; "B"]) ∧
  resolve (3 + k) (world0 (folder_dict chain2_leaf)) (Some "C") = Some (Returned []).
Proof.
  repeat split; apply resolve_Returned;
    apply (while_loop_mono 3 (3 + k)); try lia; by vm_compute.
Qed.

(** ** Dangling parent references *)

Lemma loop_folder_on_chain fs cur :
  ¬ on_chain fs cur "" → loop_folder fs cur = cur ≫= (fs !!.).
Proof.
  intros Hno. destruct cur as [u|]; [|done]. simpl.
  destruct (String.eqb_spec u "") as [->|Hu]; [|done].
  destruct (fs !! "") as [f|] eqn:Hf; [|done].
  destruct Hno. by apply on_chain_here with f.
Qed.

Lemma on_chain_parent fs u f v :
  fs !! u = Some f → ¬ on_chain fs (Some u) v → ¬ on_chain fs (parentUid f) v.
Proof. intros Hf Hno Hup. apply Hno. by apply on_chain_up with f. Qed.

Lemma lineage_walk w u l x parts :
  ¬ on_chain (folders w) (Some u) "" →
  lineage (folders w) u l x →
  x ≫= (folders w !!.) = None →
  while_loop (length l) parts (Some u) w
  = Some (Returned (reverse (title <$> l) ++ parts), w).
Proof.
  intros Hno Hlin. revert parts Hno.
  induction Hlin as [u f Hf|u f v l x Hf Hp _ IH]; intros parts Hno Hx;
    pose proof (on_chain_parent _ _ _ _ Hf Hno) as Hno';
    rewrite while_loop_turn, loop_folder_on_chain by done; simpl; rewrite Hf.
  - by rewrite while_loop_turn, loop_folder_on_chain, Hx.
  - rewrite Hp in Hno' |- *. rewrite IH by done.
    rewrite reverse_cons, <- app_assoc. done.
Qed.

(** C5, as stated, fails where a folder on the way has the empty uid: the
    walk is left there, before the missing id is looked up, and the titles up
    to the dangling reference are not returned. *)
Lemma empty_uid_hides_dangling_parent :
  lineage unnamed_orphan "" [SearchItem "" "General" (Some "dash-folder") (Some "X") None]
          (Some "X") ∧
  unnamed_orphan !! "X" = None ∧
  resolve 1 (world0 unnamed_orphan) (Some "") = Some (Returned []) ∧
  ¬ ∃ fuel, resolve fuel (world0 unnamed_orphan) (Some "") = Some (Returned ["General"]).
Proof.
  split; [by apply (lineage_last unnamed_orphan "")|].
  split; [by vm_compute|]. split; [by vm_compute|].
  intros [fuel Hrun]. apply resolve_Returned in Hrun.
  assert (while_loop 0 [] (Some "") (world0 unnamed_orphan)
          = Some (Returned [], world0 unnamed_orphan)) as H0 by by vm_compute.
  pose proof (while_loop_det _ _ _ _ _ _ _ Hrun H0). congruence.
Qed.

(** C5 (amended): for every folder mapping in which some record's parentId
    references an id [X] absent from the mapping, [resolve] of a descendant
    [u] of that record, when no folder on the chain from [u] up to that
    record has the empty string as id, ends the walk where [X] is not found
    and returns exactly the titles of the folders from that record down to
    [u]. Folders off the chain may have any id. *)
Theorem dangling_parent_ends_walk (w : world) (u : string) (l : list search_item) (X : string) :
  ¬ on_chain (folders w) (Some u) "" →
  lineage (folders w) u l (Some X) →
  folders w !! X = None →
  resolve (length l) w (Some u) = Some (Returned (reverse (title <$> l))).
Proof.
  intros Hno Hlin HX. apply resolve_Returned.
  rewrite (lineage_walk w u l (Some X) []) by done. by rewrite app_nil_r.
Qed.

Lemma on_chain_inv fs u v :
  on_chain fs (Some u) v →
  ∃ f, fs !! u = Some f ∧ (u = v ∨ on_chain fs (parentUid f) v).
Proof. inversion 1; subst; eauto. Qed.

Lemma orphan_chain_no_empty_uid : ¬ on_chain orphan_beside_unnamed (Some "C") "".
Proof.
  intros H. apply on_chain_inv in H as (f & Hf & [?|H]); [done|].
  vm_compute in Hf. injection Hf as <-. simpl in H.
  apply on_chain_inv in H as (f & Hf & [?|H]); [done|].
  vm_compute in Hf. injection Hf as <-. simpl in H.
  apply on_chain_inv in H as (f & Hf & _). by vm_compute in Hf.
Qed.

Lemma dangling_parent_ends_walk_witness :
  resolve 2 (world0 orphan_beside_unnamed) (Some "C") = Some (Returned ["B"; "C"]).
Proof.
  apply (dangling_parent_ends_walk (world0 orphan_beside_unnamed) "C"
           [folder "C" (Some "B"); folder "B" (Some "X")] "X").
  - exact orphan_chain_no_empty_uid.
  - apply lineage_up with "B"; [by vm_compute|done|].
    by apply (lineage_last orphan_beside_unnamed "B").
  - by vm_compute.
Defined.

(** ** Depth *)

Lemma depth_walk w cur n parts :
  ¬ on_chain (folders w) cur "" →
  Spec.depth (folders w) cur n →
  ∃ res, while_loop n parts cur w = Some (Returned (res ++ parts), w) ∧ length res = n.
Proof.
  intros Hno Hdepth. revert parts Hno.
  induction Hdepth as [|u Hnone|u f n Hf _ IH]; intros parts Hno.
  - by exists [].
  - exists []. split; [|done]. rewrite while_loop_turn, loop_folder_on_chain by done.
    simpl. by rewrite Hnone.
  - destruct (IH (title f :: parts) (on_chain_parent _ _ _ _ Hf Hno)) as (res & Hrun & Hlen).
    exists (res ++ [title f]). split.
    + rewrite while_loop_turn, loop_folder_on_chain by done. simpl.
      by rewrite Hf, Hrun, <- app_assoc.
    + rewrite length_app. simpl. lia.
Qed.

(** C6, as stated, fails for a leaf kept in a folder whose uid is the empty
    string: the leaf has depth 1, the sequence returned is empty. *)
Lemma empty_uid_folder_depth :
  Spec.depth unnamed (folderUid (dash "d" "CPU" (Some ""))) 1 ∧
  resolve 1 (world0 unnamed) (folderUid (dash "d" "CPU" (Some ""))) = Some (Returned []) ∧
  ¬ ∃ fuel res,
      resolve fuel (world0 unnamed) (folderUid (dash "d" "CPU" (Some ""))) = Some (Returned res) ∧
      length res = 1.
Proof.
  split.
  { eapply (Spec.depth_folder unnamed ""); [by vm_compute|]. constructor. }
  split; [by vm_compute|].
  intros (fuel & res & Hrun & Hlen). apply resolve_Returned in Hrun.
  assert (while_loop 0 [] (Some "") (world0 unnamed)
          = Some (Returned [], world0 unnamed)) as H0 by by vm_compute.
  pose proof (while_loop_det _ _ _ _ _ _ _ Hrun H0) as [= ->]. done.
Qed.

(** C6 (amended): for every cycle-free folder hierarchy and every leaf item
    in it, orphaned subtrees and unknown folder ids included, when no folder
    on the chain from the leaf's folder upwards has the empty string as id,
    the sequence returned by [resolve] of the leaf's folderUid has length
    equal to the leaf's depth in the tree (a leaf with no folderUid, or with
    one the mapping does not know, has depth 0). *)
Theorem resolve_length_is_depth (w : world) (leaf : search_item) (n : nat) :
  ¬ on_chain (folders w) (folderUid leaf) "" →
  Spec.depth (folders w) (folderUid leaf) n →
  ∃ res, resolve n w (folderUid leaf) = Some (Returned res) ∧ length res = n.
Proof.
  intros Hno Hdepth.
  destruct (depth_walk w (folderUid leaf) n [] Hno Hdepth) as (res & Hrun & Hlen).
  exists res. split; [|done]. apply resolve_Returned. by rewrite app_nil_r in Hrun.
Qed.

Lemma resolve_length_is_depth_witness :
  ∃ res, resolve 2 (world0 orphan_beside_unnamed)
                 (folderUid (dash "d" "CPU" (Some "C"))) = Some (Returned res)
         ∧ length res = 2.
Proof.
  apply (resolve_length_is_depth (world0 orphan_beside_unnamed) (dash "d" "CPU" (Some "C")) 2).
  - exact orphan_chain_no_empty_uid.
  - eapply (Spec.depth_folder orphan_beside_unnamed "C"); [by vm_compute|].
    eapply (Spec.depth_folder orphan_beside_unnamed "B"); [by vm_compute|].
    apply Spec.depth_absent. by vm_compute.
Defined.

(** ** Root level and unknown ids *)

(** C7: for every folder mapping, [resolve None] returns the empty sequence,
    whatever the number of turns allowed. *)
Theorem resolve_null (fuel : nat) (w : world) :
  resolve fuel w None = Some (Returned []).
Proof. by destruct fuel. Qed.

Lemma get_full_path_run fuel q w :
  get_full_path fuel q w =
  match resolve fuel w q with
  | Some (Returned parts) =>
      Some (Returned (match parts with [] => DIR w | _ => os_path_join (DIR w) parts end), w)
  | Some (Raised exc) => Some (Raised exc, w)
  | None => None
  end.
Proof.
  unfold get_full_path, resolve, mbind, py_bind, bind.
  destruct (while_loop fuel [] q w) as [[o w']|] eqn:Hrun; [|done].
  destruct (while_loop_pure _ _ _ _ _ _ Hrun) as (-> & res & ->). simpl.
  by destruct res.
Qed.

(** C10: for every folder mapping and every non-null queried id absent from
    the mapping, [resolve] returns the empty sequence, so [get_full_path]
    returns the root output directory [DIR], as it does for [None]. *)
Theorem resolve_unknown_id (fuel : nat) (w : world) (u : string) :
  folders w !! u = None →
  resolve fuel w (Some u) = Some (Returned []) ∧
  get_full_path fuel (Some u) w = Some (Returned (DIR w), w) ∧
  get_full_path fuel (Some u) w = get_full_path fuel None w.
Proof.
  intros Hnone.
  assert (resolve fuel w (Some u) = Some (Returned [])) as Hres.
  { apply resolve_Returned. rewrite while_loop_turn. simpl. rewrite Hnone.
    by destruct (String.eqb u ""). }
  split; [done|]. rewrite !get_full_path_run, Hres, resolve_null. done.
Qed.

Lemma resolve_unknown_id_witness :
  resolve 0 (world0 chain3) (Some "Z") = Some (Returned []) ∧
  get_full_path 0 (Some "Z") (world0 chain3)
    = Some (Returned "./grafana-dash-backup/", world0 chain3) ∧
  get_full_path 0 (Some "Z") (world0 chain3) = get_full_path 0 None (world0 chain3).
Proof.
  apply (resolve_unknown_id 0 (world0 chain3) "Z"). by vm_compute.
Defined.

(** ** Purity *)

(** C8: [resolve] is deterministic and changes no state: a call of
    [get_full_path] that ends leaves the whole state, the mapping with it, as
    it was; a second call with the same id gives the same result; and the
    result depends on nothing but the id, the mapping and [DIR] (not on the
    number of turns allowed, nor on the rest of the state). *)
Theorem get_full_path_pure (fuel : nat) (q : option string) (w w' : world)
    (o : outcome string) :
  get_full_path fuel q w = Some (o, w') →
  w' = w ∧
  get_full_path fuel q w' = Some (o, w') ∧
  resolve fuel w' q = resolve fuel w q ∧
  ∀ fuel2 w2 o2 w2',
    folders w2 = folders w → DIR w2 = DIR w →
    get_full_path fuel2 q w2 = Some (o2, w2') → o2 = o ∧ w2' = w2.
Proof.
  intros Hrun.
  assert (w' = w) as ->.
  { rewrite get_full_path_run in Hrun.
    destruct (resolve fuel w q) as [[parts|exc]|]; by inversion Hrun. }
  split; [done|]. split; [done|]. split; [done|].
  intros fuel2 w2 o2 w2' Hfs Hdir Hrun2.
  rewrite get_full_path_run in Hrun, Hrun2. unfold resolve in Hrun, Hrun2.
  pose proof (while_loop_frame fuel2 [] q w2 w Hfs) as Hframe.
  destruct (while_loop fuel2 [] q w2) as [[r2 v2]|] eqn:H2; [|done].
  destruct (while_loop fuel2 [] q w) as [[r2' v2']|] eqn:H2'; [|done].
  destruct (while_loop fuel [] q w) as [[r1 v1]|] eqn:H1; [|done].
  pose proof (while_loop_det _ _ _ _ _ _ _ H1 H2') as [= -> ->].
  simpl in Hframe. injection Hframe as ->.
  simpl in Hrun, Hrun2. rewrite Hdir in Hrun2.
  destruct r2' as [parts|exc]; inversion Hrun; inversion Hrun2; by subst.
Qed.

Lemma get_full_path_pure_witness :
  get_full_path 3 (Some "C") (world0 chain3)
    = Some (Returned "./grafana-dash-backup/A/B/C", world0 chain3) ∧
  resolve 3 (world0 chain3) (Some "C") = resolve 3 (world0 chain3) (Some "C").
Proof.
  assert (get_full_path 3 (Some "C") (world0 chain3)
          = Some (Returned "./grafana-dash-backup/A/B/C", world0 chain3)) as Hrun
    by by vm_compute.
  destruct (get_full_path_pure 3 (Some "C") (world0 chain3) (world0 chain3) _ Hrun)
    as (_ & Hagain & Hres & _).
  split; [exact Hagain|exact Hres].
Defined.

(** ** The export loop *)

Lemma get_full_path_frame fuel q w w2 p :
  folders w2 = folders w → DIR w2 = DIR w →
  get_full_path fuel q w = Some (Returned p, w) →
  get_full_path fuel q w2 = Some (Returned p, w2).
Proof.
  intros Hfs Hdir. rewrite !get_full_path_run. unfold resolve.
  rewrite (while_loop_frame fuel [] q w2 w Hfs), Hdir.
  destruct (fst <$> while_loop fuel [] q w) as [[parts|exc]|]; [|done..].
  by intros [= ->].
Qed.

Lemma export_dashboard_turn fuel d w :
  export_dashboard fuel d w =
  if is_type "dash-db" d then
    let w1 := add_line (saving_line d) w in
    match grafana w !! uid d with
    | None => Some (Returned tt, add_line (warning_line d) w1)
    | Some data =>
        match get_full_path fuel (folderUid d) w1 with
        | Some (Returned p, w2) =>
            Some (Returned tt,
                  put_file (target_file p data) (json_dumps data +:+ newline) (add_dir p w2))
        | Some (Raised exc, w2) => Some (Raised exc, w2)
        | None => None
        end
    end
  else Some (Returned tt, w).
Proof.
  unfold export_dashboard. destruct (is_type "dash-db" d); [|done].
  cbn -[get_full_path]. unfold mbind, py_bind, bind. cbn -[get_full_path].
  destruct (grafana w !! uid d) as [data|]; [|done].
  by destruct (get_full_path fuel (folderUid d) _) as [[[p|exc] w2]|].
Qed.

(** A turn changes the file system and the output only, and what it prints
    does not depend on the files already there. *)
Lemma export_dashboard_frame fuel d w w' :
  export_dashboard fuel d w = Some (Returned tt, w') →
  DIR w' = DIR w ∧ folders w' = folders w ∧ grafana w' = grafana w ∧
  stdout w' = stdout w ++ printed (grafana w) d.
Proof.
  rewrite export_dashboard_turn. unfold printed.
  destruct (is_type "dash-db" d).
  - destruct (grafana w !! uid d) as [data|].
    + destruct (get_full_path fuel (folderUid d) _) as [[[p|exc] w2]|] eqn:Hrun; try done.
      rewrite get_full_path_run in Hrun.
      destruct (resolve fuel _ _) as [[parts|exc]|]; try done.
      injection Hrun as _ <-. by intros [= <-].
    + intros [= <-]. simpl. by rewrite <- app_assoc.
  - intros [= <-]. by rewrite app_nil_r.
Qed.

Lemma export_dashboards_app fuel l1 l2 w :
  export_dashboards fuel (l1 ++ l2) w =
  match export_dashboards fuel l1 w with
  | Some (Returned _, w1) => export_dashboards fuel l2 w1
  | other => other
  end.
Proof.
  revert w. induction l1 as [|d l1 IH]; intros w; [done|].
  cbn -[export_dashboard]. unfold mbind, py_bind, bind.
  destruct (export_dashboard fuel d w) as [[[[]|exc] w1]|]; [|done..].
  apply IH.
Qed.

Lemma export_dashboards_frame fuel l w w' :
  export_dashboards fuel l w = Some (Returned tt, w') →
  DIR w' = DIR w ∧ folders w' = folders w ∧ grafana w' = grafana w ∧
  stdout w' = stdout w ++ concat (printed (grafana w) <$> l).
Proof.
  revert w. induction l as [|d l IH]; intros w.
  - intros [= <-]. by rewrite app_nil_r.
  - cbn -[export_dashboard]. unfold mbind, py_bind, bind.
    destruct (export_dashboard fuel d w) as [[[[]|exc] w1]|] eqn:Hd; [|done..].
    intros Hrest. apply export_dashboard_frame in Hd as (Hdir & Hfs & Hapi & Hout).
    apply IH in Hrest as (Hdir' & Hfs' & Hapi' & Hout').
    rewrite Hdir', Hfs', Hapi', Hout', Hapi, Hout, <- app_assoc. done.
Qed.

(** The turn of a dashboard the server knows writes its target file. *)
Lemma export_dashboard_writes fuel d data p w0 w w' :
  is_type "dash-db" d = true →
  grafana w0 !! uid d = Some data →
  get_full_path fuel (folderUid d) w0 = Some (Returned p, w0) →
  DIR w = DIR w0 → folders w = folders w0 → grafana w = grafana w0 →
  export_dashboard fuel d w = Some (Returned tt, w') →
  fs_files w' = <[ target_file p data := json_dumps data +:+ newline ]> (fs_files w).
Proof.
  intros Htype Hdata Hpath Hdir Hfs Hapi. rewrite export_dashboard_turn, Htype, Hapi, Hdata.
  cbn -[get_full_path].
  rewrite (get_full_path_frame fuel (folderUid d) w0 (add_line (saving_line d) w) p) by done.
  by intros [= <-].
Qed.

(** C9, as stated, fails: the export of two dashboards with the same path and
    file name ends normally with one file, holding the second one's text, and
    prints the two usual lines and nothing about the collision. *)
Lemma twins_overwrite_silently :
  export_dashboards 0 twins twins_world = Some (Returned tt, twins_done) ∧
  export_dashboards 0 [dash "d1" "CPU load" None] twins_world
  = Some (Returned tt,
          World "./grafana-dash-backup/" ∅ (grafana twins_world)
                {[ "./grafana-dash-backup/" ]}
                {[ "./grafana-dash-backup/CPUload.json" := "{1}" +:+ newline ]}
                ["Saving dashboard: CPU load"]).
Proof. split; by vm_compute. Qed.

(** C9 (amended): for every pair of leaf items whose resolved paths and
    synthesized file names coincide, the export performs no collision
    detection: once the listing up to the later item has been exported, with
    the earlier item's file written on its turn, the later item's turn goes
    through as any other, puts the later item's text in that file in place of
    what was there and prints nothing but its usual line. *)
Theorem export_last_write_wins (fuel : nat) (w w1 : world)
    (pre mid : list search_item) (d1 d2 : search_item) (b1 b2 : dashboard) (p : string) :
  is_type "dash-db" d1 = true →
  is_type "dash-db" d2 = true →
  grafana w !! uid d1 = Some b1 →
  grafana w !! uid d2 = Some b2 →
  get_full_path fuel (folderUid d1) w = Some (Returned p, w) →
  get_full_path fuel (folderUid d2) w = Some (Returned p, w) →
  file_stem b1 = file_stem b2 →
  export_dashboards fuel (pre ++ d1 :: mid) w = Some (Returned tt, w1) →
  (∃ w0, export_dashboards fuel (pre ++ [d1]) w = Some (Returned tt, w0) ∧
         fs_files w0 !! target_file p b1 = Some (json_dumps b1 +:+ newline)) ∧
  ∃ w2, export_dashboards fuel (pre ++ d1 :: mid ++ [d2]) w = Some (Returned tt, w2) ∧
        fs_files w2 = <[ target_file p b1 := json_dumps b2 +:+ newline ]> (fs_files w1) ∧
        stdout w2 = stdout w1 ++ [saving_line d2].
Proof.
  intros Ht1 Ht2 Hb1 Hb2 Hp1 Hp2 Hstem Hrun. split.
  - replace (pre ++ d1 :: mid) with ((pre ++ [d1]) ++ mid) in Hrun
      by by rewrite <- app_assoc.
    rewrite export_dashboards_app in Hrun.
    destruct (export_dashboards fuel (pre ++ [d1]) w) as [[[[]|exc] w0]|] eqn:H1; [|done..].
    exists w0. split; [done|].
    rewrite export_dashboards_app in H1.
    destruct (export_dashboards fuel pre w) as [[[[]|exc] v]|] eqn:H0; [|done..].
    apply export_dashboards_frame in H0 as (Hdir & Hfs & Hapi & _).
    cbn -[export_dashboard] in H1. unfold mbind, py_bind, bind in H1.
    destruct (export_dashboard fuel d1 v) as [[[[]|exc] v1]|] eqn:Hd1; [|done..].
    injection H1 as <-.
    rewrite (export_dashboard_writes fuel d1 b1 p w v v1) by done.
    apply lookup_insert_eq.
  - replace (pre ++ d1 :: mid ++ [d2]) with ((pre ++ d1 :: mid) ++ [d2])
      by by rewrite <- app_assoc.
    rewrite export_dashboards_app, Hrun.
    apply export_dashboards_frame in Hrun as (Hdir & Hfs & Hapi & _).
    cbn -[export_dashboard]. unfold mbind, py_bind, bind.
    rewrite export_dashboard_turn, Ht2, Hapi, Hb2. cbn -[get_full_path].
    rewrite (get_full_path_frame fuel (folderUid d2) w (add_line (saving_line d2) w1) p)
      by done.
    eexists. split; [done|]. simpl. unfold target_file. by rewrite Hstem.
Qed.

Lemma export_last_write_wins_witness :
  ∃ w2, export_dashboards 0 ([] ++ dash "d1" "CPU load" None :: [] ++ [dash "d2" "CPU load" None])
                          twins_world = Some (Returned tt, w2) ∧
        fs_files w2
        = <[ target_file "./grafana-dash-backup/" (Dashboard "CPU load" "{1}")
             := json_dumps (Dashboard "CPU load" "{2}") +:+ newline ]> (fs_files twins_first) ∧
        stdout w2 = stdout twins_first ++ [saving_line (dash "d2" "CPU load" None)].
Proof.
  refine (proj2 (export_last_write_wins 0 twins_world twins_first [] []
            (dash "d1" "CPU load" None) (dash "d2" "CPU load" None)
            (Dashboard "CPU load" "{1}") (Dashboard "CPU load" "{2}")
            "./grafana-dash-backup/" _ _ _ _ _ _ _ _)); by vm_compute.
Defined.

(** ** The dict of folders *)

Lemma folder_dict_snoc l it :
  folder_dict (l ++ [it]) =
  if is_type "dash-folder" it then <[ uid it := it ]> (folder_dict l) else folder_dict l.
Proof. unfold folder_dict. by rewrite foldl_app. Qed.

Lemma dict_keys_snoc l it :
  dict_keys (l ++ [it]) =
  if is_type "dash-folder" it
  then (if bool_decide (uid it ∈ dict_keys l) then dict_keys l else dict_keys l ++ [uid it])
  else dict_keys l.
Proof. unfold dict_keys. by rewrite foldl_app. Qed.

Lemma folder_dict_last l u :
  folder_dict l !! u
  = last (filter (λ it, is_type "dash-folder" it = true ∧ uid it = u) l).
Proof.
  induction l as [|it l IH] using rev_ind; [done|].
  rewrite folder_dict_snoc, filter_app, last_app.
  destruct (is_type "dash-folder" it) eqn:Htype.
  - destruct (decide (uid it = u)) as [Hu|Hu].
    + rewrite filter_cons_True by done. simpl. subst u. apply lookup_insert_eq.
    + rewrite filter_cons_False by (intros [_ ?]; done). simpl.
      by rewrite lookup_insert_ne.
  - rewrite filter_cons_False by (intros [? _]; congruence). done.
Qed.

(** X1: [build_folder_map] keeps, under each uid, the last hit of the listing
    that is a folder with that uid; a uid no folder hit carries is not a key. *)
Theorem folder_dict_lookup (search_results : list search_item) (u : string) :
  folder_dict search_results !! u
  = last (filter (λ it, is_type "dash-folder" it = true ∧ uid it = u) search_results).
Proof. apply folder_dict_last. Qed.

(** X2: every value of the dict is a hit of the listing whose type is
    'dash-folder', stored under its own uid: dashboards are never folders of
    the map. *)
Theorem folder_dict_invariant (search_results : list search_item) (u : string)
    (it : search_item) :
  folder_dict search_results !! u = Some it →
  it ∈ search_results ∧ is_type "dash-folder" it = true ∧ uid it = u.
Proof.
  rewrite folder_dict_last. intros Hlast.
  apply last_Some_elem_of, list_elem_of_filter in Hlast. tauto.
Qed.

Lemma folder_dict_invariant_witness :
  folder "B" (Some "A") ∈ small_listing ∧
  is_type "dash-folder" (folder "B" (Some "A")) = true ∧
  uid (folder "B" (Some "A")) = "B".
Proof. apply (folder_dict_invariant small_listing "B"). by vm_compute. Defined.

Lemma folder_dict_is_Some l u :
  is_Some (folder_dict l !! u) ↔
  ∃ it, it ∈ l ∧ is_type "dash-folder" it = true ∧ uid it = u.
Proof.
  rewrite folder_dict_last, last_is_Some. split.
  - intros Hne.
    destruct (filter (λ it, is_type "dash-folder" it = true ∧ uid it = u) l)
      as [|it k] eqn:Hf; [done|].
    exists it. assert (it ∈ it :: k) as Hin by left.
    rewrite <- Hf in Hin. apply list_elem_of_filter in Hin. tauto.
  - intros (it & Hin & Htype & Hu) Hnil.
    assert (it ∈ filter (λ it, is_type "dash-folder" it = true ∧ uid it = u) l) as Hin'
      by (apply list_elem_of_filter; tauto).
    rewrite Hnil in Hin'. by apply elem_of_nil in Hin'.
Qed.

Lemma dict_keys_spec l :
  NoDup (dict_keys l) ∧ ∀ u, u ∈ dict_keys l ↔ is_Some (folder_dict l !! u).
Proof.
  induction l as [|it l [IHnd IH]] using rev_ind.
  - split; [constructor|]. intros u. split; [by intros ?%elem_of_nil|].
    intros [? Hx]. unfold folder_dict in Hx. simpl in Hx. by rewrite lookup_empty in Hx.
  - rewrite dict_keys_snoc, folder_dict_snoc.
    destruct (is_type "dash-folder" it); [|done].
    destruct (bool_decide (uid it ∈ dict_keys l)) eqn:Hseen.
    + apply bool_decide_eq_true in Hseen. split; [done|]. intros u.
      rewrite lookup_insert. destruct (decide (uid it = u)) as [<-|]; [|apply IH].
      split; eauto.
    + apply bool_decide_eq_false in Hseen. split.
      * apply NoDup_app. split; [done|]. split; [|apply NoDup_singleton].
        intros x Hx ->%list_elem_of_singleton. done.
      * intros u. rewrite elem_of_app, list_elem_of_singleton, lookup_insert.
        destruct (decide (uid it = u)) as [<-|Hne].
        -- split; eauto.
        -- rewrite IH. split; [intros [?|?]; [done|congruence]|by left].
Qed.

(** X3: the keys [create_folder_structure] iterates over are the uids of the
    folder hits of the listing, each once: a uid is a key exactly when some
    hit of type 'dash-folder' carries it. *)
Theorem dict_keys_are_folder_uids (search_results : list search_item) :
  NoDup (dict_keys search_results) ∧
  ∀ u, u ∈ dict_keys search_results ↔
       ∃ it, it ∈ search_results ∧ is_type "dash-folder" it = true ∧ uid it = u.
Proof.
  destruct (dict_keys_spec search_results) as [Hnd Hkeys]. split; [done|].
  intros u. by rewrite Hkeys, folder_dict_is_Some.
Qed.

(** ** Paths *)



Lemma resolve_never_raises fuel w q exc : resolve fuel w q ≠ Some (Raised exc).
Proof.
  unfold resolve. destruct (while_loop fuel [] q w) as [[o w']|] eqn:Hrun; [|done].
  destruct (while_loop_pure _ _ _ _ _ _ Hrun) as (_ & res & ->). done.
Qed.


Lemma resolve_child fuel w u f :
  u ≠ "" → folders w !! u = Some f →
  resolve (S fuel) w (Some u) =
  match resolve fuel w (parentUid f) with
  | Some (Returned res) => Some (Returned (res ++ [title f]))
  | other => other
  end.
Proof.
  intros Hu Hf. unfold resolve. rewrite while_loop_turn.
  assert (loop_folder (folders w) (Some u) = Some f) as -> by (apply loop_folder_Some; eauto).
  rewrite while_loop_parts.
  by destruct (while_loop fuel [] (parentUid f) w) as [[[res|exc] w']|].
Qed.

Lemma get_full_path_step fuel w u f :
  u ≠ "" → folders w !! u = Some f →
  get_full_path (S fuel) (Some u) w =
  match get_full_path fuel (parentUid f) w with
  | Some (Returned p, w') => Some (Returned (join_step p (title f)), w')
  | other => other
  end.
Proof.
  intros Hu Hf. rewrite !get_full_path_run, (resolve_child fuel w u f Hu Hf).
  destruct (resolve fuel w (parentUid f)) as [[res|exc]|]; try done.
  destruct res as [|t res]; [done|].
  simpl. unfold os_path_join. by rewrite foldl_app.
Qed.

(** X5: the directory of a folder is the directory of its parent joined with
    its own title (the parent's being [DIR] when the parent reference is null,
    empty or unknown): one more turn of the loop for the child gives
    [os.path.join(parent_path, title)]. *)
Theorem get_full_path_child (fuel : nat) (w : world) (u : string) (f : search_item) :
  u ≠ "" → folders w !! u = Some f →
  get_full_path (S fuel) (Some u) w =
  match get_full_path fuel (parentUid f) w with
  | Some (Returned p, w') => Some (Returned (join_step p (title f)), w')
  | other => other
  end.
Proof. apply get_full_path_step. Qed.

Lemma get_full_path_child_witness :
  get_full_path 2 (Some "B") small_world =
  match get_full_path 1 (parentUid (folder "B" (Some "A"))) small_world with
  | Some (Returned p, w') => Some (Returned (join_step p (title (folder "B" (Some "A")))), w')
  | other => other
  end.
Proof.
  apply (get_full_path_child 1 small_world "B" (folder "B" (Some "A"))); by vm_compute.
Defined.

(** How many turns a finished walk has made. *)
Lemma while_loop_turns fuel parts cur w res w' :
  while_loop fuel parts cur w = Some (Returned res, w') →
  ∃ k, length res = k + length parts ∧ ∀ j, j < k → while_loop j parts cur w = None.
Proof.
  revert parts cur. induction fuel as [|fuel IH]; intros parts cur;
    rewrite while_loop_turn; destruct (loop_folder (folders w) cur) as [f|] eqn:Hf; try done.
  - intros [= <- <-]. exists 0. split; [done|]. lia.
  - intros Hrun. destruct (IH _ _ Hrun) as (k & Hlen & Hbusy).
    exists (S k). split; [simpl in Hlen; lia|].
    intros j Hj. rewrite while_loop_turn, Hf. destruct j as [|j]; [done|].
    apply Hbusy. lia.
  - intros [= <- <-]. exists 0. split; [done|]. lia.
Qed.

(** X6: a walk that ends has visited each folder at most once: the sequence
    [resolve] returns is never longer than the dict has folders. *)
Theorem resolve_length_bound (fuel : nat) (w : world) (q : option string)
    (res : list string) :
  resolve fuel w q = Some (Returned res) → length res ≤ size (folders w).
Proof.
  intros Hres. apply resolve_Returned in Hres.
  destruct (while_loop_turns _ _ _ _ _ _ Hres) as (k & Hlen & Hbusy).
  simpl in Hlen. rewrite Hlen, Nat.add_0_r. destruct k as [|k]; [lia|].
  destruct (proj1 (while_loop_running k [] q w) (Hbusy k (Nat.lt_succ_diag_r k)))
    as (u & v & -> & Hsteps & Hv).
  assert (size (∅ : gset string) + k + 1 ≤ size (folders w)) as Hbound.
  { apply (acyclic_walk_bound (folders w) _ u v ∅); [set_solver|set_solver| |done|done].
    intros c Huc Hcc.
    assert (reaches_cycle (folders w) (Some u)) as Hcyc by by exists u, c.
    pose proof (cycle_never_leaves w (Some u) fuel Hcyc). congruence. }
  rewrite size_empty in Hbound. lia.
Qed.

Lemma resolve_length_bound_witness :
  length ["A"; "B"] ≤ size (folders small_world).
Proof. apply (resolve_length_bound 2 small_world (Some "B")). by vm_compute. Defined.







(** ** File names *)

Lemma remove_char_filter c s :
  String.list_ascii_of_string (remove_char c s)
  = filter (λ d, d ≠ c) (String.list_ascii_of_string s).
Proof.
  induction s as [|d s IH]; [done|]. simpl.
  destruct (Ascii.eqb_spec d c) as [->|Hne].
  - by rewrite filter_cons_False by (intros ?; done).
  - rewrite filter_cons_True by done. simpl. by rewrite IH.
Qed.

Lemma file_stem_filter data :
  String.list_ascii_of_string (file_stem data)
  = filter (λ c, ¬ stripped c) (String.list_ascii_of_string (dash_title data)).
Proof.
  unfold file_stem. rewrite !remove_char_filter, !list_filter_filter.
  apply list_filter_iff. intros c. unfold stripped. tauto.
Qed.

(** X9: the three [replace] calls leave the title with every space, slash
    and colon taken out and all other characters kept, in order. *)
Theorem file_stem_chars (data : dashboard) :
  String.list_ascii_of_string (file_stem data)
  = filter (λ c, ¬ stripped c) (String.list_ascii_of_string (dash_title data)).
Proof. apply file_stem_filter. Qed.



(** ** More on the export loop *)

Lemma get_full_path_reads fuel q w1 w2 :
  folders w1 = folders w2 → DIR w1 = DIR w2 →
  fst <$> get_full_path fuel q w1 = fst <$> get_full_path fuel q w2.
Proof.
  intros Hfs Hdir. rewrite !get_full_path_run. unfold resolve.
  rewrite (while_loop_frame fuel [] q w1 w2 Hfs), Hdir.
  by destruct (fst <$> while_loop fuel [] q w2) as [[parts|exc]|].
Qed.

Lemma get_full_path_state fuel q w o w' :
  get_full_path fuel q w = Some (o, w') → w' = w ∧ ∃ p, o = Returned p.
Proof.
  rewrite get_full_path_run.
  destruct (resolve fuel w q) as [[parts|exc]|] eqn:Hres; try done.
  - intros [= <- <-]. eauto.
  - by apply resolve_never_raises in Hres.
Qed.

(** X11: hits that are not of type 'dash-db' are passed over: exporting a
    listing is exporting its dashboards, in the same order. *)
Theorem export_skips_non_dashboards (fuel : nat) (search_results : list search_item)
    (w : world) :
  export_dashboards fuel search_results w
  = export_dashboards fuel (filter (λ d, is_type "dash-db" d = true) search_results) w.
Proof.
  revert w. induction search_results as [|d l IH]; intros w; [done|].
  destruct (is_type "dash-db" d) eqn:Htype.
  - rewrite filter_cons_True by done. cbn -[export_dashboard].
    unfold mbind, py_bind, bind.
    destruct (export_dashboard fuel d w) as [[[[]|exc] w1]|]; first [done | apply IH].
  - rewrite filter_cons_False by congruence. cbn -[export_dashboard].
    unfold mbind, py_bind, bind. rewrite export_dashboard_turn, Htype. apply IH.
Qed.

Lemma export_dashboard_files fuel w d w1 w2 :
  DIR w1 = DIR w → folders w1 = folders w → grafana w1 = grafana w →
  export_dashboard fuel d w1 = Some (Returned tt, w2) →
  fs_files w2 = write_of fuel w (fs_files w1) d.
Proof.
  intros Hdir Hfs Hapi. rewrite export_dashboard_turn. unfold write_of.
  destruct (is_type "dash-db" d); [|by intros [= <-]].
  cbn -[get_full_path]. rewrite Hapi.
  destruct (grafana w !! uid d) as [data|]; [|by intros [= <-]].
  pose proof (get_full_path_reads fuel (folderUid d) (add_line (saving_line d) w1) w Hfs Hdir)
    as Hsame.
  destruct (get_full_path fuel (folderUid d) (add_line (saving_line d) w1))
    as [[[p|exc] v1]|] eqn:H1; try done.
  destruct (get_full_path fuel (folderUid d) w) as [[o v]|] eqn:H2; [|done].
  injection Hsame as <-.
  apply get_full_path_state in H1 as (-> & _). by intros [= <-].
Qed.

Lemma export_dashboards_files_from fuel w l w1 w' :
  DIR w1 = DIR w → folders w1 = folders w → grafana w1 = grafana w →
  export_dashboards fuel l w1 = Some (Returned tt, w') →
  fs_files w' = foldl (write_of fuel w) (fs_files w1) l.
Proof.
  revert w1. induction l as [|d l IH]; intros w1 Hdir Hfs Hapi.
  - by intros [= <-].
  - cbn -[export_dashboard]. unfold mbind, py_bind, bind.
    destruct (export_dashboard fuel d w1) as [[[[]|exc] w2]|] eqn:Hd; try done.
    intros Hrest. rewrite <- (export_dashboard_files fuel w d w1 w2) by done.
    apply export_dashboard_frame in Hd as (Hdir' & Hfs' & Hapi' & _).
    apply IH; congruence.
Qed.

(** X13: a finished export changes neither [DIR], the dict nor the server,
    and prints, per dashboard in listing order, the 'Saving dashboard' line,
    followed by the 'Warning' line when the answer has no 'dashboard' key;
    other hits print nothing. *)
Theorem export_dashboards_output (fuel : nat) (search_results : list search_item)
    (w w' : world) :
  export_dashboards fuel search_results w = Some (Returned tt, w') →
  DIR w' = DIR w ∧ folders w' = folders w ∧ grafana w' = grafana w ∧
  stdout w' = stdout w ++ concat (printed (grafana w) <$> search_results).
Proof. apply export_dashboards_frame. Qed.

(** X14: the export has no way out of a folder cycle: once the listing
    before it has been exported, a dashboard the server knows, kept in a
    folder from which a cycle of parent links is reachable, makes the export
    hang in [get_full_path], whatever follows it in the listing. *)
Theorem export_hangs_on_cycle (fuel : nat) (pre post : list search_item)
    (d : search_item) (data : dashboard) (w w1 : world) :
  is_type "dash-db" d = true →
  grafana w !! uid d = Some data →
  reaches_cycle (folders w) (folderUid d) →
  export_dashboards fuel pre w = Some (Returned tt, w1) →
  export_dashboards fuel (pre ++ d :: post) w = None.
Proof.
  intros Htype Hdata Hcyc Hpre. rewrite export_dashboards_app, Hpre.
  apply export_dashboards_frame in Hpre as (Hdir & Hfs & Hapi & _).
  cbn -[export_dashboard]. unfold mbind, py_bind, bind.
  rewrite export_dashboard_turn, Htype, Hapi, Hdata. cbn -[get_full_path].
  rewrite get_full_path_run.
  assert (resolve fuel (add_line (saving_line d) w1) (folderUid d) = None) as ->; [|done].
  apply resolve_running, cycle_never_leaves. simpl. by rewrite Hfs.
Qed.

Lemma export_dashboards_output_witness :
  DIR small_done = DIR small_world ∧ folders small_done = folders small_world ∧
  grafana small_done = grafana small_world ∧
  stdout small_done
  = stdout small_world ++ concat (printed (grafana small_world) <$> small_listing).
Proof. apply (export_dashboards_output 2 small_listing small_world small_done). by vm_compute. Defined.

Lemma export_hangs_on_cycle_witness :
  export_dashboards 9 ([folder "A" (Some "B")] ++ dash "d" "CPU load" (Some "A") :: []) cycle_world
  = None.
Proof.
  apply (export_hangs_on_cycle 9 [folder "A" (Some "B")] [] (dash "d" "CPU load" (Some "A"))
           (Dashboard "CPU load" "{}") cycle_world cycle_world); [by vm_compute..| |by vm_compute].
  exact cycle2_reaches_cycle.
Defined.

(** ** The folder directories *)

Lemma create_folder_structure_turn fuel u rest w :
  create_folder_structure fuel (u :: rest) w =
  match get_full_path fuel (Some u) w with
  | Some (Returned p, _) => create_folder_structure fuel rest (add_dir p w)
  | Some (Raised exc, w1) => Some (Raised exc, w1)
  | None => None
  end.
Proof.
  cbn -[get_full_path]. unfold mbind, py_bind, bind.
  destruct (get_full_path fuel (Some u) w) as [[[p|exc] w1]|] eqn:Hrun; try done.
  by apply get_full_path_state in Hrun as (-> & _).
Qed.

Lemma create_folder_structure_app fuel l1 l2 w :
  create_folder_structure fuel (l1 ++ l2) w =
  match create_folder_structure fuel l1 w with
  | Some (Returned _, w1) => create_folder_structure fuel l2 w1
  | other => other
  end.
Proof.
  revert w. induction l1 as [|u l1 IH]; intros w; [done|].
  rewrite <- app_comm_cons, !create_folder_structure_turn.
  destruct (get_full_path fuel (Some u) w) as [[[p|exc] w1]|]; first [done | apply IH].
Qed.

Lemma create_folder_structure_effect fuel uids w w' :
  create_folder_structure fuel uids w = Some (Returned tt, w') →
  DIR w' = DIR w ∧ folders w' = folders w ∧ grafana w' = grafana w ∧
  fs_files w' = fs_files w ∧ stdout w' = stdout w ∧
  ∀ p, p ∈ fs_dirs w' ↔
       p ∈ fs_dirs w ∨ ∃ u, u ∈ uids ∧ get_full_path fuel (Some u) w = Some (Returned p, w).
Proof.
  revert w. induction uids as [|u rest IH]; intros w.
  - intros [= <-]. repeat split; try done; [by left|].
    intros [?|(u & ?%elem_of_nil & _)]; done.
  - rewrite create_folder_structure_turn.
    destruct (get_full_path fuel (Some u) w) as [[[p0|exc] w1]|] eqn:Hu; try done.
    apply get_full_path_state in Hu as Hw1. destruct Hw1 as [-> _].
    intros Hrest. apply IH in Hrest as (Hdir & Hfs & Hapi & Hfiles & Hout & Hdirs).
    repeat split; try done. 
    + intros Hp. apply Hdirs in Hp as [Hp|(v & Hv & Hrun)].
      * simpl in Hp. apply elem_of_union in Hp as [->%elem_of_singleton|Hp]; [|by left].
        right. exists u. split; [left|done].
      * right. exists v. split; [by right|].
        by apply (get_full_path_frame fuel (Some v) (add_dir p0 w) w).
    + intros [Hp|(v & Hv & Hrun)]; apply Hdirs.
      * left. simpl. apply elem_of_union. by right.
      * apply elem_of_cons in Hv as [->|Hv].
        -- left. simpl. apply elem_of_union. left. apply elem_of_singleton. congruence.
        -- right. exists v. split; [done|].
           by apply (get_full_path_frame fuel (Some v) w (add_dir p0 w)).
Qed.

(** X15: a finished [create_folder_structure] has called [os.makedirs] on
    the path of every folder it iterated over and on nothing else; it writes
    no file, prints nothing and leaves [DIR], the dict and the directories
    already there as they were. *)
Theorem create_folder_structure_dirs (fuel : nat) (uids : list string) (w w' : world) :
  create_folder_structure fuel uids w = Some (Returned tt, w') →
  DIR w' = DIR w ∧ folders w' = folders w ∧ grafana w' = grafana w ∧
  fs_files w' = fs_files w ∧ stdout w' = stdout w ∧
  ∀ p, p ∈ fs_dirs w' ↔
       p ∈ fs_dirs w ∨ ∃ u, u ∈ uids ∧ get_full_path fuel (Some u) w = Some (Returned p, w).
Proof. apply create_folder_structure_effect. Qed.

Lemma create_folder_structure_dirs_witness :
  fs_files (add_dir "out/A/B" (add_dir "out/A" small_world)) = fs_files small_world.
Proof.
  refine (proj1 (proj2 (proj2 (proj2 (create_folder_structure_dirs 2
            (dict_keys small_listing) small_world
            (add_dir "out/A/B" (add_dir "out/A" small_world)) _))))).
  by vm_compute.
Defined.

(** X18: [create_folder_structure] walks up from every folder of the dict:
    once the folders before it have been handled, a folder from which a cycle
    of parent links is reachable makes it hang in [get_full_path], whatever
    folders follow. *)
Theorem create_folder_structure_hangs_on_cycle (fuel : nat) (l1 l2 : list string)
    (c : string) (w w1 : world) :
  reaches_cycle (folders w) (Some c) →
  create_folder_structure fuel l1 w = Some (Returned tt, w1) →
  create_folder_structure fuel (l1 ++ c :: l2) w = None.
Proof.
  intros Hcyc H1. rewrite create_folder_structure_app, H1.
  apply create_folder_structure_effect in H1 as (_ & Hfs1 & _).
  rewrite create_folder_structure_turn, get_full_path_run.
  assert (resolve fuel w1 (Some c) = None) as ->; [|done].
  apply resolve_running, cycle_never_leaves. by rewrite Hfs1.
Qed.

Lemma create_folder_structure_hangs_on_cycle_witness :
  create_folder_structure 9 ([] ++ "A" :: ["B"]) cycle_world = None.
Proof.
  apply (create_folder_structure_hangs_on_cycle 9 [] ["B"] "A" cycle_world cycle_world);
    [exact cycle2_reaches_cycle|by vm_compute].
Defined.

(** ** Termination of the whole run *)

Lemma acyclic_no_cycle fs q : acyclic fs → ¬ reaches_cycle fs q.
Proof. intros Hacyc (u & c & _ & _ & Hcc). by apply (Hacyc c). Qed.

Lemma acyclic_get_full_path w q :
  acyclic (folders w) →
  ∃ p, get_full_path (size (folders w)) q w = Some (Returned p, w).
Proof.
  intros Hacyc.
  destruct (acyclic_leaves w q (acyclic_no_cycle _ q Hacyc)) as [res Hrun].
  rewrite get_full_path_run. unfold resolve. rewrite Hrun. simpl. eauto.
Qed.

Lemma acyclic_create_folder_structure w uids :
  acyclic (folders w) →
  ∃ w', create_folder_structure (size (folders w)) uids w = Some (Returned tt, w').
Proof.
  remember (size (folders w)) as n eqn:Hn. intros Hacyc. revert w Hn Hacyc.
  induction uids as [|u rest IH]; intros w Hn Hacyc; [by eexists|].
  rewrite create_folder_structure_turn. subst n.
  destruct (acyclic_get_full_path w (Some u) Hacyc) as [p ->].
  by apply (IH (add_dir p w)).
Qed.

Lemma acyclic_export_dashboards w l :
  acyclic (folders w) →
  ∃ w', export_dashboards (size (folders w)) l w = Some (Returned tt, w').
Proof.
  remember (size (folders w)) as n eqn:Hn. intros Hacyc. revert w Hn Hacyc.
  induction l as [|d l IH]; intros w Hn Hacyc; [by eexists|].
  cbn -[export_dashboard]. unfold mbind, py_bind, bind.
  assert (∃ w1, export_dashboard n d w = Some (Returned tt, w1)) as [w1 Hd].
  { rewrite export_dashboard_turn. destruct (is_type "dash-db" d); [|by eexists].
    cbn -[get_full_path]. destruct (grafana w !! uid d); [|by eexists].
    subst n.
    destruct (acyclic_get_full_path (add_line (saving_line d) w) (folderUid d) Hacyc)
      as [p Hp]. simpl in Hp. rewrite Hp. by eexists. }
  rewrite Hd. apply export_dashboard_frame in Hd as (_ & Hfs & _).
  apply IH; by rewrite Hfs.
Qed.

(** ** The whole run *)

Lemma create_root_directories_run w :
  create_root_directories w =
  Some (Returned tt,
        if bool_decide (DIR w ∈ fs_dirs w) || bool_decide (is_Some (fs_files w !! DIR w))
        then w else add_dir (DIR w) w).
Proof.
  unfold create_root_directories, os_path_exists, mbind, py_bind, bind. cbn.
  by destruct (bool_decide (DIR w ∈ fs_dirs w) || bool_decide (is_Some (fs_files w !! DIR w))).
Qed.

Lemma main_run fuel host dir l w :
  main fuel host dir (Returned l) w =
  match create_folder_structure fuel (dict_keys l)
          (set_folders (folder_dict l) (main_prepared host dir w)) with
  | Some (Returned _, w1) => export_dashboards fuel l w1
  | other => other
  end.
Proof.
  unfold main, main_prepared.
  cbn -[create_folder_structure export_dashboards dict_keys folder_dict rstrip_char].
  unfold mbind, py_bind, bind.
  cbn -[create_folder_structure export_dashboards dict_keys folder_dict rstrip_char
        create_root_directories].
  rewrite create_root_directories_run.
  cbn -[create_folder_structure export_dashboards dict_keys folder_dict rstrip_char].
  destruct (bool_decide (dir ∈ fs_dirs w) || bool_decide (is_Some (fs_files w !! dir)));
    by destruct (create_folder_structure fuel (dict_keys l) _) as [[[[]|exc] w1]|].
Qed.

Lemma main_fetch_failed fuel host dir exc w :
  main fuel host dir (Raised exc) w = Some (Raised exc, main_prepared host dir w).
Proof.
  unfold main, main_prepared. cbn -[rstrip_char create_root_directories].
  unfold mbind, py_bind, bind. cbn -[rstrip_char create_root_directories].
  rewrite create_root_directories_run. cbn -[rstrip_char].
  by destruct (bool_decide (dir ∈ fs_dirs w) || bool_decide (is_Some (fs_files w !! dir))).
Qed.

Lemma script_run fuel host dir response w :
  script fuel host dir response w =
  match main fuel host dir response w with
  | Some (Returned _, w1) =>
      Some (Returned tt, add_line "Grafana dashboards backup completed successfully." w1)
  | other => other
  end.
Proof.
  unfold script. cbn -[main]. unfold mbind, py_bind, bind.
  by destruct (main fuel host dir response w) as [[[[]|exc] w1]|].
Qed.

Lemma main_prepared_state host dir w :
  DIR (main_prepared host dir w) = dir ∧
  folders (main_prepared host dir w) = folders w ∧
  grafana (main_prepared host dir w) = grafana w ∧
  fs_files (main_prepared host dir w) = fs_files w ∧
  stdout (main_prepared host dir w)
  = stdout w ++ ["Exporting dashboards from: " +:+ rstrip_char "/"%char host;
                 "Output directory: " +:+ dir].
Proof.
  unfold main_prepared.
  destruct (bool_decide (dir ∈ fs_dirs w) || bool_decide (is_Some (fs_files w !! dir)));
    cbn -[rstrip_char]; by rewrite <- app_assoc.
Qed.

(** X16: on a listing whose folders form no cycle no walk of the run is
    unbounded: with as many turns allowed per walk as there are folders, the
    script comes to an end. *)
Theorem script_ends_on_acyclic (args_host args_dir : string)
    (search_results : list search_item) (w : world) :
  acyclic (folder_dict search_results) →
  ∃ o w', script (size (folder_dict search_results)) args_host args_dir
                 (Returned search_results) w = Some (o, w').
Proof.
  intros Hacyc. rewrite script_run, main_run.
  set (w0 := set_folders (folder_dict search_results) (main_prepared args_host args_dir w)).
  assert (folders w0 = folder_dict search_results) as Hfs0 by done.
  rewrite <- Hfs0 in Hacyc |- *.
  destruct (acyclic_create_folder_structure w0 (dict_keys search_results) Hacyc) as [w1 H1].
  rewrite H1. apply create_folder_structure_effect in H1 as (_ & Hfs1 & _).
  rewrite <- Hfs1 in Hacyc |- *.
  destruct (acyclic_export_dashboards w1 search_results Hacyc) as [w2 H2].
  rewrite H2. eauto.
Qed.

Lemma small_listing_links x y :
  parent_link (folder_dict small_listing) x y → x = "B" ∧ y = "A".
Proof.
  intros (_ & f & Hf & Hp).
  apply folder_dict_invariant in Hf as (Hin & _ & <-).
  repeat (apply elem_of_cons in Hin as [->|Hin]; [by (try injection Hp as <-)|]).
  by apply elem_of_nil in Hin.
Qed.

Lemma small_listing_acyclic : acyclic (folder_dict small_listing).
Proof.
  intros c Hcc. inversion Hcc as [x y Hl|x y z Hl Hrest]; subst.
  - by apply small_listing_links in Hl as [-> ?].
  - apply small_listing_links in Hl as [-> ->].
    inversion Hrest as [x y Hl|x y z Hl _]; subst;
      by apply small_listing_links in Hl as [? ?].
Qed.

Lemma script_ends_on_acyclic_witness :
  ∃ o w', script (size (folder_dict small_listing)) "http://g/" "out"
                 (Returned small_listing) small_world = Some (o, w').
Proof.
  exact (script_ends_on_acyclic "http://g/" "out" small_listing small_world
           small_listing_acyclic).
Defined.

(** X17: when the listing call fails the script does not end normally: it
    ends with an exception, the dict of folders is not built and no file is
    written. *)
Theorem script_fetch_failure (fuel : nat) (args_host args_dir exc : string) (w w' : world)
    (o : outcome unit) :
  script fuel args_host args_dir (Raised exc) w = Some (o, w') →
  (∃ e, o = Raised e) ∧ folders w' = folders w ∧ fs_files w' = fs_files w.
Proof.
  rewrite script_run, main_fetch_failed. intros [= <- <-].
  pose proof (main_prepared_state args_host args_dir w) as (_ & Hfs & _ & Hfiles & _).
  eauto.
Qed.

Lemma script_fetch_failure_witness :
  (∃ e, @Raised unit "HTTPError" = Raised e) ∧
  folders (main_prepared "http://g/" "out" small_world) = folders small_world ∧
  fs_files (main_prepared "http://g/" "out" small_world) = fs_files small_world.
Proof.
  apply (script_fetch_failure 0 "http://g/" "out" "HTTPError" small_world). by vm_compute.
Defined.

(** X19: a finished run of the script leaves [DIR] the directory given and
    the dict the one built from the listing, and has printed the two header
    lines, then the lines of the export in listing order, then the success
    message; making the directories prints nothing. *)
Theorem script_output (fuel : nat) (args_host args_dir : string)
    (search_results : list search_item) (w w' : world) :
  script fuel args_host args_dir (Returned search_results) w = Some (Returned tt, w') →
  DIR w' = args_dir ∧ folders w' = folder_dict search_results ∧
  stdout w'
  = stdout w ++ ["Exporting dashboards from: " +:+ rstrip_char "/"%char args_host;
                 "Output directory: " +:+ args_dir]
             ++ concat (printed (grafana w) <$> search_results)
             ++ ["Grafana dashboards backup completed successfully."].
Proof.
  rewrite script_run, main_run.
  set (w0 := set_folders (folder_dict search_results) (main_prepared args_host args_dir w)).
  destruct (create_folder_structure fuel (dict_keys search_results) w0)
    as [[[[]|exc] w1]|] eqn:H1; try done.
  destruct (export_dashboards fuel search_results w1) as [[[[]|exc] w2]|] eqn:H2; try done.
  intros [= <-].
  apply create_folder_structure_effect in H1 as (Hdir1 & Hfs1 & Hapi1 & _ & Hout1 & _).
  apply export_dashboards_frame in H2 as (Hdir2 & Hfs2 & Hapi2 & Hout2).
  pose proof (main_prepared_state args_host args_dir w) as (Hdir0 & _ & Hapi0 & _ & Hout0).
  simpl. rewrite Hdir2, Hdir1, Hfs2, Hfs1, Hout2, Hout1, Hapi1.
  repeat split; [done|].
  change (stdout w0) with (stdout (main_prepared args_host args_dir w)).
  change (grafana w0) with (grafana (main_prepared args_host args_dir w)).
  by rewrite Hout0, Hapi0, <- !app_assoc.
Qed.

Lemma script_output_witness :
  stdout small_run_done
  = stdout small_world ++ ["Exporting dashboards from: " +:+ rstrip_char "/"%char "http://g/";
                           "Output directory: " +:+ "out"]
      ++ concat (printed (grafana small_world) <$> small_listing)
      ++ ["Grafana dashboards backup completed successfully."].
Proof.
  refine (proj2 (proj2 (script_output 2 "http://g/" "out" small_listing small_world
                          small_run_done _))).
  by vm_compute.
Defined.

(** ** The host *)

(** X20: [HOST] never ends with a slash, and the host given is [HOST]
    followed by slashes only: the URLs built as [HOST + '/api/...'] have one
    slash at the joint. *)
Theorem rstrip_host (args_host : string) :
  endswith_sep (rstrip_char "/"%char args_host) = false ∧
  ∃ n, args_host = rstrip_char "/"%char args_host +:+ slashes n.
Proof.
  induction args_host as [|d r [IHend [n IHn]]].
  - split; [done|]. by exists 0.
  - cbn [rstrip_char]. destruct (rstrip_char "/"%char r) as [|e r'] eqn:Hr.
    + destruct (Ascii.eqb_spec d "/"%char) as [->|Hd].
      * split; [done|]. exists (S n). by rewrite IHn.
      * split; [simpl; by apply Ascii.eqb_neq|]. exists n. by rewrite IHn.
    + split; [exact IHend|]. exists n. by rewrite IHn at 1.
Qed.

(** ** Running the export again *)

Lemma write_of_written fuel w m d :
  write_of fuel w m d =
  match written fuel w d with
  | Some (k, v) => <[ k := v ]> m
  | None => m
  end.
Proof.
  unfold write_of, written. destruct (is_type "dash-db" d); [|done].
  destruct (grafana w !! uid d); [|done].
  by destruct (get_full_path fuel (folderUid d) w) as [[[p|exc] w1]|].
Qed.

Lemma foldl_write_of_lookup fuel w m l k :
  foldl (write_of fuel w) m l !! k =
  match last (filter (λ kv : string * string, kv.1 = k) (omap (written fuel w) l)) with
  | Some kv => Some kv.2
  | None => m !! k
  end.
Proof.
  induction l as [|d l IH] using rev_ind; [done|].
  rewrite foldl_app, omap_app, filter_app, last_app. simpl. rewrite write_of_written.
  destruct (written fuel w d) as [[k' v]|]; simpl; [|done].
  destruct (decide (k' = k)) as [->|Hne].
  - rewrite filter_cons_True by done. simpl. apply lookup_insert_eq.
  - rewrite filter_cons_False by done. simpl. by rewrite lookup_insert_ne.
Qed.

Lemma foldl_write_of_twice fuel w m l :
  foldl (write_of fuel w) (foldl (write_of fuel w) m l) l = foldl (write_of fuel w) m l.
Proof.
  apply map_eq. intros k. rewrite (foldl_write_of_lookup fuel w (foldl _ m l)).
  rewrite (foldl_write_of_lookup fuel w m l).
  by destruct (last (filter (λ kv : string * string, kv.1 = k) (omap (written fuel w) l))).
Qed.

Lemma export_dashboards_again fuel l wa wb wa' :
  DIR wb = DIR wa → folders wb = folders wa → grafana wb = grafana wa →
  export_dashboards fuel l wa = Some (Returned tt, wa') →
  ∃ wb', export_dashboards fuel l wb = Some (Returned tt, wb').
Proof.
  revert wa wb. induction l as [|d l IH]; intros wa wb Hdir Hfs Hapi; [by eexists|].
  cbn -[export_dashboard]. unfold mbind, py_bind, bind.
  destruct (export_dashboard fuel d wa) as [[[[]|exc] wa1]|] eqn:Ha; try done.
  intros Hrest.
  assert (∃ wb1, export_dashboard fuel d wb = Some (Returned tt, wb1)) as [wb1 Hb].
  { revert Ha. rewrite !export_dashboard_turn. destruct (is_type "dash-db" d); [|by eexists].
    cbn -[get_full_path]. rewrite Hapi. destruct (grafana wa !! uid d); [|by eexists].
    pose proof (get_full_path_reads fuel (folderUid d) (add_line (saving_line d) wb)
                  (add_line (saving_line d) wa) Hfs Hdir) as Hsame.
    destruct (get_full_path fuel (folderUid d) (add_line (saving_line d) wa))
      as [[[p|exc] v]|]; try done.
    destruct (get_full_path fuel (folderUid d) (add_line (saving_line d) wb))
      as [[[p'|exc] v']|]; try done. by eexists. }
  rewrite Hb.
  apply export_dashboard_frame in Ha as (Hdira & Hfsa & Hapia & _).
  apply export_dashboard_frame in Hb as (Hdirb & Hfsb & Hapib & _).
  apply (IH wa1 wb1); congruence.
Qed.

(** X21: the export can be run again: after a finished export, a second
    one over the same listing, with the server answering as before, ends as
    well and leaves every file as the first run left it. *)
Theorem export_dashboards_rerun (fuel : nat) (search_results : list search_item)
    (w w1 : world) :
  export_dashboards fuel search_results w = Some (Returned tt, w1) →
  ∃ w2, export_dashboards fuel search_results w1 = Some (Returned tt, w2) ∧
        fs_files w2 = fs_files w1.
Proof.
  intros Hrun.
  pose proof (export_dashboards_frame _ _ _ _ Hrun) as (Hdir & Hfs & Hapi & _).
  destruct (export_dashboards_again fuel search_results w w1 w1 Hdir Hfs Hapi Hrun)
    as [w2 Hrun2].
  exists w2. split; [done|].
  rewrite (export_dashboards_files_from fuel w search_results w1 w2) by done.
  rewrite (export_dashboards_files_from fuel w search_results w w1) by done.
  apply foldl_write_of_twice.
Qed.

Lemma export_dashboards_rerun_witness :
  ∃ w2, export_dashboards 2 small_listing small_done = Some (Returned tt, w2) ∧
        fs_files w2 = fs_files small_done.
Proof. apply (export_dashboards_rerun 2 small_listing small_world small_done). by vm_compute. Defined.
